(** * Dashboard-Dicoding: the aggregation core of [dashboard/dashboard.py]

    A shallow embedding of the data frames the dashboard script works on and
    of the pandas operations it calls, followed by the properties of the
    time-window filter and of the four aggregation helpers
    ([create_daily_orders_df], [create_sum_order_items_df],
    [create_bystate_df], [create_rfm_df]).

    Conventions of the embedding.
    - A DataFrame is the list of its rows, in index order; a Series is the
      list of its (index label, value) pairs.
    - A [datetime64[ns]] cell is [option Z]: nanoseconds since the epoch, or
      [None] for [NaT].  A nullable text cell is [option string] ([None] for
      [NaN]).
    - [order_id], [customer_id] and [customer_state] are text columns that
      hold no null; [price] is an amount in minor currency units (the
      script's float column, without rounding). *)

From Stdlib Require Import List ZArith Lia Bool String Ascii Permutation.
From Stdlib Require Import Sorting.Sorted Structures.OrderedTypeEx.
Import ListNotations.

Local Open Scope Z_scope.

(** ** Keys that pandas can sort: a strict order decided by [key_ltb], and
    an equality test *)

Class KeyOrd (K : Type) : Type := {
  key_ltb : K -> K -> bool;
  key_eq_dec : forall a b : K, {a = b} + {a <> b}
}.

Definition key_lt {K : Type} `{KeyOrd K} (a b : K) : Prop := key_ltb a b = true.

(** What sorting relies on: the order is strict and total. *)
Class KeyOrdLaws (K : Type) `{KeyOrd K} : Prop := {
  key_ltb_irrefl : forall a, key_ltb a a = false;
  key_ltb_trans : forall a b c,
      key_ltb a b = true -> key_ltb b c = true -> key_ltb a c = true;
  key_ltb_total : forall a b,
      key_ltb a b = false -> key_ltb b a = false -> a = b
}.

(** Text keys, in the order of their characters, and day numbers. *)
#[export] Instance string_KeyOrd : KeyOrd string := {
  key_ltb := String.ltb;
  key_eq_dec := string_dec
}.

#[export] Instance Z_KeyOrd : KeyOrd Z := {
  key_ltb := Z.ltb;
  key_eq_dec := Z.eq_dec
}.

(** ** Timestamps *)

(** A [datetime64[ns]] value; [None] is [NaT]. *)
Definition Timestamp : Type := option Z.

Definition ns_per_day : Z := 86400000000000.

(** The calendar day (days since the epoch) a valid timestamp falls on. *)
Definition day_of (t : Z) : Z := t / ns_per_day.

(** [pd.to_datetime(d)] for a [datetime.date] [d]: midnight of that day. *)
Definition to_datetime_date (d : Z) : Z := d * ns_per_day.

(** [pd.to_datetime] on a column that is [datetime64] already gives the
    values back as they are. *)
Definition to_datetime (t : Timestamp) : Timestamp := t.

(** Comparisons of a column cell with a timestamp; any comparison with
    [NaT] is [False]. *)
Definition ts_ge (c : Timestamp) (t : Z) : bool :=
  match c with Some v => t <=? v | None => false end.

Definition ts_le (c : Timestamp) (t : Z) : bool :=
  match c with Some v => v <=? t | None => false end.

(** ** The source relations *)

(** A row of [all_data.csv] (an order line). *)
Record OrderLine : Type := mkOrderLine {
  order_id : string;
  customer_id : string;
  customer_state : string;
  product_category_name_english : option string;
  order_purchase_timestamp : Timestamp;
  price : Z
}.

(** A row of [orders_dataset.csv], with the four parsed date columns. *)
Record Order : Type := mkOrder {
  o_order_id : string;
  o_order_purchase_timestamp : Timestamp;
  o_order_estimated_delivery_date : Timestamp;
  o_order_delivered_customer_date : Timestamp;
  o_order_delivered_carrier_date : Timestamp
}.

(** ** The date-range filter (lines 77-78) *)

Definition main_df (all_df : list OrderLine) (start_date end_date : Z)
  : list OrderLine :=
  filter (fun r =>
            ts_ge (order_purchase_timestamp r) (to_datetime_date start_date)
            && ts_le (order_purchase_timestamp r) (to_datetime_date end_date))
         all_df.

(** The day a row's purchase falls on, when its timestamp is valid. *)
Definition purchase_day (r : OrderLine) : option Z :=
  option_map day_of (order_purchase_timestamp r).

(** ** Column reductions *)

(** The valid cells of a column, in order. *)
Definition dropna {A : Type} (col : list (option A)) : list A :=
  flat_map (fun c => match c with Some v => [v] | None => [] end) col.

(** [Series.count()]: the number of cells that are not null; the columns it
    is applied to here hold no null. *)
Definition series_count {A : Type} (col : list A) : nat := List.length col.

(** [Series.nunique()]: the number of distinct values. *)
Definition series_nunique {A : Type} (dec : forall a b : A, {a = b} + {a <> b})
           (col : list A) : nat :=
  List.length (nodup dec col).

(** [Series.sum()]; the sum of no cell is 0.  The prices are summed exactly
    here, where the script adds up a float64 column with rounding: the
    properties below take a sum as the value of one group, and none regroups
    or reorders a sum. *)
Definition series_sum (col : list Z) : Z := fold_right Z.add 0 col.

(** [Series.sum()] on a column of counts. *)
Definition nat_sum (col : list nat) : nat := fold_right Nat.add 0%nat col.

(** [Series.max()] on a datetime column: [NaT] cells are skipped, and the
    result is [NaT] when no valid cell is left. *)
Definition series_max (col : list Timestamp) : Timestamp :=
  match dropna col with
  | [] => None
  | t :: ts => Some (fold_right Z.max t ts)
  end.

(** ** [groupby]: one group per distinct key that is not null, keys ascending
    ([sort=True], [dropna=True]) *)

Section GroupBy.
Context {K : Type} `{KeyOrd K}.

Fixpoint insert_key (k : K) (l : list K) : list K :=
  match l with
  | [] => [k]
  | x :: xs =>
      if key_ltb k x then k :: l
      else if key_ltb x k then x :: insert_key k xs
           else l
  end.

(** The distinct keys of a column, ascending. *)
Definition sort_keys (col : list K) : list K := fold_right insert_key [] col.

Definition key_eqb (a b : K) : bool :=
  if key_eq_dec a b then true else false.

Definition has_key {A : Type} (key : A -> option K) (k : K) (r : A) : bool :=
  match key r with
  | Some k' => key_eqb k' k
  | None => false
  end.

Definition groupby {A : Type} (key : A -> option K) (df : list A)
  : list (K * list A) :=
  map (fun k => (k, filter (has_key key k) df))
      (sort_keys (dropna (map key df))).
End GroupBy.

(** ** [Series.sort_values(ascending=False)]

    pandas reverses the values, takes an ascending argsort and reverses the
    result.  The default sort kind does not promise an order among equal
    values; the argsort modelled here is one of the sorts it may be (the one
    that keeps equal values in their order).  The properties below use of
    it only that the result holds the same pairs in descending order of the
    value: none says in which order equal values come out. *)

Section SortValues.
Context {L : Type}.

Fixpoint insert_asc (x : L * nat) (l : list (L * nat)) : list (L * nat) :=
  match l with
  | [] => [x]
  | y :: ys =>
      if Nat.leb (snd x) (snd y) then x :: l else y :: insert_asc x ys
  end.

Definition argsort (s : list (L * nat)) : list (L * nat) :=
  fold_right insert_asc [] s.

Definition sort_values_desc (s : list (L * nat)) : list (L * nat) :=
  rev (argsort (rev s)).
End SortValues.

(** Orders on the rows of a Series of counts. *)
Definition count_le {L : Type} (a b : L * nat) : Prop := (snd a <= snd b)%nat.
Definition count_ge {L : Type} (a b : L * nat) : Prop := (snd b <= snd a)%nat.

(** [reset_index()] turns the index of a Series into a column: the rows are
    the same pairs. *)
Definition reset_index {L V : Type} (s : list (L * V)) : list (L * V) := s.

(** ** [create_sum_order_items_df] (lines 24-26)

    Columns of the result: [product_category_name_english], [order_id]
    (the count). *)

Definition create_sum_order_items_df (df : list OrderLine)
  : list (string * nat) :=
  reset_index
    (sort_values_desc
       (map (fun g => (fst g, series_count (map order_id (snd g))))
            (groupby product_category_name_english df))).

(** The counts of [create_sum_order_items_df] before the sort, one per
    category in ascending order. *)
Definition category_counts (df : list OrderLine) : list (string * nat) :=
  map (fun g => (fst g, series_count (map order_id (snd g))))
      (groupby product_category_name_english df).

(** The tie-break the specification describes for this frame, as a check on
    a relation and a ranking: of two rows with the same count, the one listed
    first has the category that is seen first in the relation. *)

(** The distinct values of a column, in the order they are first seen. *)
Fixpoint first_seen (col : list string) : list string :=
  match col with
  | [] => []
  | c :: cs => c :: filter (fun x => negb (String.eqb x c)) (first_seen cs)
  end.

Fixpoint index_of (c : string) (l : list string) : nat :=
  match l with
  | [] => 0%nat
  | x :: xs => if String.eqb x c then 0%nat else S (index_of c xs)
  end.

Fixpoint all_pairs {A : Type} (P : A -> A -> bool) (l : list A) : bool :=
  match l with
  | [] => true
  | x :: xs => forallb (P x) xs && all_pairs P xs
  end.

Definition ties_by_first_seen (df : list OrderLine) (out : list (string * nat))
  : bool :=
  let seen := first_seen (dropna (map product_category_name_english df)) in
  all_pairs (fun a b =>
               if Nat.eqb (snd a) (snd b)
               then Nat.ltb (index_of (fst a) seen) (index_of (fst b) seen)
               else true) out.

(** ** [create_bystate_df] (lines 29-32)

    Columns of the result: [customer_state], [customer_count]. *)

Definition create_bystate_df (df : list OrderLine) : list (string * nat) :=
  reset_index
    (map (fun g => (fst g, series_nunique string_dec (map customer_id (snd g))))
         (groupby (fun r => Some (customer_state r)) df)).

(** ** [create_daily_orders_df] (lines 9-21) *)

Record DailyRow : Type := mkDailyRow {
  d_order_purchase_timestamp : Z;
  order_count : nat;
  revenue : Z
}.

(** The days [lo], [lo+1], ..., [hi]. *)
Definition day_range (lo hi : Z) : list Z :=
  map (fun i => lo + Z.of_nat i) (seq 0 (Z.to_nat (hi - lo + 1))).

Definition on_day (d : Z) (r : OrderLine) : bool :=
  match purchase_day r with
  | Some d' => d' =? d
  | None => false
  end.

(** [df.resample(rule='D', on='order_purchase_timestamp')]: one bin per day
    from the first to the last day that holds a row, each with the rows of
    that day; rows without a timestamp are in no bin. *)
Definition resample_D (df : list OrderLine) : list (Z * list OrderLine) :=
  match dropna (map purchase_day df) with
  | [] => []
  | d :: ds =>
      map (fun b => (b, filter (on_day b) df))
          (day_range (fold_right Z.min d ds) (fold_right Z.max d ds))
  end.

Definition create_daily_orders_df (df : list OrderLine) : list DailyRow :=
  map (fun b =>
         {| d_order_purchase_timestamp := to_datetime_date (fst b);
            order_count := series_nunique string_dec (map order_id (snd b));
            revenue := series_sum (map price (snd b)) |})
      (resample_D df).

(** The (day, order) pairs of the rows that have a timestamp. *)
Definition day_order_pairs (df : list OrderLine) : list (Z * string) :=
  dropna (map (fun r => option_map (fun d => (d, order_id r)) (purchase_day r))
              df).

Definition day_order_dec (a b : Z * string) : {a = b} + {a <> b}.
Proof.
  decide equality; [apply string_dec | apply Z.eq_dec].
Defined.

(** Line 96: [daily_orders_df['order_count'].sum()]. *)
Definition total_orders (daily_orders_df : list DailyRow) : nat :=
  nat_sum (map order_count daily_orders_df).

(** ** [create_rfm_df] (lines 35-51) *)

Record RfmRow : Type := mkRfmRow {
  rfm_customer_id : string;
  max_order_timestamp : Timestamp;
  frequency : nat;
  monetary : Z;
  recency : option Z
}.

(** A difference of timestamps, in nanoseconds; [NaT] on either side gives
    [NaT].  pandas keeps the difference in 64 bits and raises when it does
    not fit (timestamps some 292 years apart), in which case no frame is
    returned; the difference here is not bounded. *)
Definition timedelta (a b : Timestamp) : option Z :=
  match a, b with
  | Some x, Some y => Some (x - y)
  | _, _ => None
  end.

(** [.dt.days]: the whole days of a timedelta, rounded down. *)
Definition dt_days (td : option Z) : option Z :=
  option_map (fun d => d / ns_per_day) td.

(** The assignment of line 45, on one row of [orders_df]. *)
Definition set_order_purchase_timestamp (o : Order) (t : Timestamp) : Order :=
  {| o_order_id := o_order_id o;
     o_order_purchase_timestamp := t;
     o_order_estimated_delivery_date := o_order_estimated_delivery_date o;
     o_order_delivered_customer_date := o_order_delivered_customer_date o;
     o_order_delivered_carrier_date := o_order_delivered_carrier_date o |}.

(** The function returns [rfm_df]; the second component is [orders_df] as the
    caller finds it afterwards (line 45 assigns to one of its columns). *)
Definition create_rfm_df (df : list OrderLine) (orders_df : list Order)
  : list RfmRow * list Order :=
  let rfm_df :=
    map (fun g =>
           {| rfm_customer_id := fst g;
              max_order_timestamp :=
                series_max (map order_purchase_timestamp (snd g));
              frequency := series_nunique string_dec (map order_id (snd g));
              monetary := series_sum (map price (snd g));
              recency := None |})
        (groupby (fun r => Some (customer_id r)) df) in
  let rfm_df :=
    map (fun r =>
           {| rfm_customer_id := rfm_customer_id r;
              max_order_timestamp := to_datetime (max_order_timestamp r);
              frequency := frequency r;
              monetary := monetary r;
              recency := recency r |}) rfm_df in
  let orders_df :=
    map (fun o =>
           set_order_purchase_timestamp
             o (to_datetime (o_order_purchase_timestamp o))) orders_df in
  let recent_date := series_max (map o_order_purchase_timestamp orders_df) in
  let rfm_df :=
    map (fun r =>
           {| rfm_customer_id := rfm_customer_id r;
              max_order_timestamp := max_order_timestamp r;
              frequency := frequency r;
              monetary := monetary r;
              recency := dt_days (timedelta recent_date (max_order_timestamp r)) |})
        rfm_df in
  (rfm_df, orders_df).

(** ** The orders table as [create_rfm_df] may be handed it

    Line 45 parses the purchase column of the table the function is given
    and assigns the result to that column of the same table.  In the script
    the column is parsed before the call (line 61); that table is
    [list Order] above.  A table that was not parsed holds in the column
    what [read_csv] left there.  Of such cells the missing value (the NaN of
    an empty field), which [pd.to_datetime] turns into [NaT], is modelled
    here; text, which needs the date parser, is not. *)









(** ** The script from the filter to the four frames (lines 77-84) *)

Record Globals : Type := mkGlobals {
  all_df : list OrderLine;
  orders_df : list Order
}.

Record Views : Type := mkViews {
  daily_orders_df : list DailyRow;
  sum_order_items_df : list (string * nat);
  bystate_df : list (string * nat);
  rfm_df : list RfmRow
}.

(** The four frames for a date range, and the globals as the run leaves
    them. *)
Definition dashboard (g : Globals) (start_date end_date : Z) : Views * Globals :=
  let main := main_df (all_df g) start_date end_date in
  let daily := create_daily_orders_df main in
  let items := create_sum_order_items_df main in
  let bystate := create_bystate_df main in
  let (rfm, orders') := create_rfm_df main (orders_df g) in
  ({| daily_orders_df := daily;
      sum_order_items_df := items;
      bystate_df := bystate;
      rfm_df := rfm |},
   {| all_df := all_df g; orders_df := orders' |}).

(** ** Pairs of a grouping key and a counted value *)

(** The (key, value) pairs of the rows whose key is not null. *)
Definition key_val_pairs {A K V : Type} (key : A -> option K) (val : A -> V)
           (df : list A) : list (K * V) :=
  dropna (map (fun r => option_map (fun k => (k, val r)) (key r)) df).

Definition pair_dec {K V : Type} `{KeyOrd K}
           (vdec : forall a b : V, {a = b} + {a <> b}) (a b : K * V)
  : {a = b} + {a <> b}.
Proof.
  destruct a as [k1 v1], b as [k2 v2].
  destruct (key_eq_dec k1 k2) as [Ek | Nk]; [|right; congruence].
  destruct (vdec v1 v2) as [Ev | Nv]; [left; congruence | right; congruence].
Defined.

(** The grouping keys of [create_bystate_df] and of [create_rfm_df]. *)
Definition state_key (r : OrderLine) : option string := Some (customer_state r).

Definition customer_key (r : OrderLine) : option string := Some (customer_id r).

(** Whether a cell holds a value. *)
Definition notna {A : Type} (c : option A) : bool :=
  match c with Some _ => true | None => false end.

(** ** The record store: sorting the rows and the bounds of the date picker
    (lines 64-69) *)

Section SortRows.
Context {A : Type} (key : A -> Z).

Fixpoint insert_row (x : A) (l : list A) : list A :=
  match l with
  | [] => [x]
  | y :: ys => if key x <=? key y then x :: l else y :: insert_row x ys
  end.

(** An ascending sort of rows on an integer key. *)
Definition argsort_rows (l : list A) : list A := fold_right insert_row [] l.
End SortRows.

Definition timestamp_ns (r : OrderLine) : Z :=
  match order_purchase_timestamp r with Some t => t | None => 0 end.

(** Lines 64-65: [sort_values(by="order_purchase_timestamp")] and
    [reset_index(drop=True)].  The rows with a timestamp come first, in
    ascending order; the [NaT] rows follow ([na_position='last']), in the
    order they had.  The default sort kind does not promise an order among
    equal timestamps; the sort modelled here is the one that keeps them in
    their order, and the properties below do not say in which order they
    come out. *)
Definition sort_by_purchase (df : list OrderLine) : list OrderLine :=
  argsort_rows timestamp_ns
               (filter (fun r => notna (order_purchase_timestamp r)) df)
  ++ filter (fun r => negb (notna (order_purchase_timestamp r))) df.

(** The order of two rows in the sorted frame. *)
Definition purchase_le (a b : OrderLine) : Prop :=
  match order_purchase_timestamp a, order_purchase_timestamp b with
  | Some x, Some y => x <= y
  | _, None => True
  | None, Some _ => False
  end.

(** [Series.min()] on a datetime column. *)
Definition series_min (col : list Timestamp) : Timestamp :=
  match dropna col with
  | [] => None
  | t :: ts => Some (fold_right Z.min t ts)
  end.

(** Lines 68-69. *)
Definition min_date (df : list OrderLine) : Timestamp :=
  series_min (map order_purchase_timestamp df).

Definition max_date (df : list OrderLine) : Timestamp :=
  series_max (map order_purchase_timestamp df).

(** ** What the page takes from the frames (lines 96-166) *)

(** The columns of the frames that hold no sum of prices: the dates and
    order counts of the daily frame, the category and state frames, and the
    customer, last purchase, frequency and recency of the RFM frame. *)
Definition daily_counts (daily_orders_df : list DailyRow) : list (Z * nat) :=
  map (fun m => (d_order_purchase_timestamp m, order_count m)) daily_orders_df.

Definition rfm_counts (rfm_df : list RfmRow)
  : list (string * Timestamp * nat * option Z) :=
  map (fun r => (rfm_customer_id r, max_order_timestamp r, frequency r, recency r))
      rfm_df.

Definition frame_counts (v : Views)
  : list (Z * nat) * list (string * nat) * list (string * nat)
    * list (string * Timestamp * nat * option Z) :=
  (daily_counts (daily_orders_df v), sum_order_items_df v, bystate_df v,
   rfm_counts (rfm_df v)).

(** [DataFrame.head(n)] and [DataFrame.tail(n)]. *)
Definition head {A : Type} (n : nat) (df : list A) : list A := firstn n df.

Definition tail {A : Type} (n : nat) (df : list A) : list A :=
  skipn (List.length df - n) df.

(** Lines 117 and 122: the best and the worst categories. *)
Definition best_products (sum_order_items_df : list (string * nat))
  : list (string * nat) := head 5 sum_order_items_df.

Definition worst_products (sum_order_items_df : list (string * nat))
  : list (string * nat) := tail 5 sum_order_items_df.

(** Line 135: [bystate_df.sort_values(by="customer_count", ascending=False)]. *)
Definition bystate_by_count (bystate_df : list (string * nat))
  : list (string * nat) := sort_values_desc bystate_df.

(** Line 163: [rfm_df.sort_values(by="frequency", ascending=False).head(5)];
    the rows are sorted on their frequency column. *)
Definition top_by_frequency (rfm_df : list RfmRow) : list RfmRow :=
  head 5 (map fst (sort_values_desc (map (fun r => (r, frequency r)) rfm_df))).

(** ** Sample rows *)

(** Day 17532 of the epoch is 2018-01-01. *)
Definition hour : Z := 3600000000000.

Definition line (oid cid st : string) (cat : option string) (t : Timestamp)
           (p : Z) : OrderLine :=
  mkOrderLine oid cid st cat t p.

Definition at_time (d h : Z) : Timestamp := Some (d * ns_per_day + h * hour).


(** * Properties *)

(** ** The orders on text and on day numbers are strict and total *)

Lemma string_ltb_lt (a b : string) :
  String.ltb a b = true <-> String_as_OT.lt a b.
Proof.
  unfold String.ltb. rewrite <- String_as_OT.cmp_lt. unfold String_as_OT.cmp.
  destruct (String.compare a b); split; congruence.
Qed.

Lemma string_ltb_irrefl (a : string) : String.ltb a a = false.
Proof.
  unfold String.ltb.
  assert (E : String.compare a a = Eq) by (apply String_as_OT.cmp_eq; reflexivity).
  rewrite E. reflexivity.
Qed.

Lemma string_ltb_trans (a b c : string) :
  String.ltb a b = true -> String.ltb b c = true -> String.ltb a c = true.
Proof.
  rewrite !string_ltb_lt. apply String_as_OT.lt_trans.
Qed.

Lemma string_ltb_total (a b : string) :
  String.ltb a b = false -> String.ltb b a = false -> a = b.
Proof.
  unfold String.ltb. intros Hab Hba.
  apply String.compare_eq_iff.
  rewrite (String.compare_antisym b a) in Hba.
  destruct (String.compare a b); simpl in *; congruence.
Qed.

#[export] Instance string_KeyOrdLaws : KeyOrdLaws string := {
  key_ltb_irrefl := string_ltb_irrefl;
  key_ltb_trans := string_ltb_trans;
  key_ltb_total := string_ltb_total
}.

Lemma Z_ltb_trans (a b c : Z) :
  Z.ltb a b = true -> Z.ltb b c = true -> Z.ltb a c = true.
Proof. rewrite !Z.ltb_lt. lia. Qed.

Lemma Z_ltb_total (a b : Z) : Z.ltb a b = false -> Z.ltb b a = false -> a = b.
Proof. rewrite !Z.ltb_ge. lia. Qed.

#[export] Instance Z_KeyOrdLaws : KeyOrdLaws Z := {
  key_ltb_irrefl := Z.ltb_irrefl;
  key_ltb_trans := Z_ltb_trans;
  key_ltb_total := Z_ltb_total
}.


(** ** Columns *)

Lemma dropna_In {A : Type} (col : list (option A)) (v : A) :
  In v (dropna col) <-> In (Some v) col.
Proof.
  unfold dropna. rewrite in_flat_map. split.
  - intros [c [Hc Hv]]. destruct c as [w|]; simpl in Hv; [|contradiction].
    destruct Hv as [-> | []]. exact Hc.
  - intros Hc. exists (Some v). split; [exact Hc | left; reflexivity].
Qed.

Lemma dropna_map_Some {A B : Type} (f : A -> B) (l : list A) :
  dropna (map (fun r => Some (f r)) l) = map f l.
Proof.
  induction l as [|a l IH]; simpl; [reflexivity|]. f_equal. exact IH.
Qed.

Lemma dropna_app {A : Type} (l1 l2 : list (option A)) :
  dropna (l1 ++ l2) = dropna l1 ++ dropna l2.
Proof. unfold dropna. apply flat_map_app. Qed.

Lemma fold_max_ge (t : Z) (ts : list Z) :
  t <= fold_right Z.max t ts /\ forall x, In x ts -> x <= fold_right Z.max t ts.
Proof.
  induction ts as [|a ts [IH1 IH2]]; simpl.
  - split; [lia | intros x []].
  - split; [lia|]. intros x [-> | Hx]; [lia|]. specialize (IH2 x Hx). lia.
Qed.

Lemma fold_min_le (t : Z) (ts : list Z) :
  fold_right Z.min t ts <= t /\ forall x, In x ts -> fold_right Z.min t ts <= x.
Proof.
  induction ts as [|a ts [IH1 IH2]]; simpl.
  - split; [lia | intros x []].
  - split; [lia|]. intros x [-> | Hx]; [lia|]. specialize (IH2 x Hx). lia.
Qed.

Lemma fold_max_In (t : Z) (ts : list Z) : In (fold_right Z.max t ts) (t :: ts).
Proof.
  induction ts as [|a ts IH]; simpl; [left; reflexivity|].
  destruct (Z.max_spec a (fold_right Z.max t ts)) as [[_ E] | [_ E]]; rewrite E.
  - simpl in IH. destruct IH as [IH | IH]; [left; exact IH | right; right; exact IH].
  - right; left; reflexivity.
Qed.

Lemma fold_min_In (t : Z) (ts : list Z) : In (fold_right Z.min t ts) (t :: ts).
Proof.
  induction ts as [|a ts IH]; simpl; [left; reflexivity|].
  destruct (Z.min_spec a (fold_right Z.min t ts)) as [[_ E] | [_ E]]; rewrite E.
  - right; left; reflexivity.
  - simpl in IH. destruct IH as [IH | IH]; [left; exact IH | right; right; exact IH].
Qed.

(** ** Sorted keys *)

Section GroupByFacts.
Context {K : Type} `{KeyOrdLaws K}.

Lemma key_eqb_true (a b : K) : key_eqb a b = true <-> a = b.
Proof.
  unfold key_eqb. destruct (key_eq_dec a b); split; congruence.
Qed.

Lemma key_lt_neq (a b : K) : key_lt a b -> a <> b.
Proof.
  unfold key_lt. intros Hlt ->. rewrite key_ltb_irrefl in Hlt. discriminate.
Qed.

Lemma insert_key_In (k x : K) (l : list K) :
  In x (insert_key k l) <-> x = k \/ In x l.
Proof.
  induction l as [|y ys IH]; simpl.
  - intuition.
  - destruct (key_ltb k y) eqn:Hky.
    + simpl. intuition.
    + destruct (key_ltb y k) eqn:Hyk.
      * simpl. rewrite IH. intuition.
      * assert (k = y) by (apply key_ltb_total; assumption). subst y.
        simpl. intuition.
Qed.

Lemma sort_keys_In (x : K) (col : list K) : In x (sort_keys col) <-> In x col.
Proof.
  induction col as [|k col IH]; simpl.
  - reflexivity.
  - rewrite insert_key_In, IH. intuition.
Qed.

Lemma insert_key_sorted (k : K) (l : list K) :
  StronglySorted key_lt l -> StronglySorted key_lt (insert_key k l).
Proof.
  induction l as [|y ys IH]; simpl; intros Hs.
  - constructor; constructor.
  - apply StronglySorted_inv in Hs. destruct Hs as [Hys Hall].
    destruct (key_ltb k y) eqn:Hky.
    + constructor; [constructor; assumption|].
      constructor; [exact Hky|].
      rewrite Forall_forall in *. intros z Hz.
      apply (key_ltb_trans k y z); [exact Hky | apply Hall; exact Hz].
    + destruct (key_ltb y k) eqn:Hyk.
      * constructor; [apply IH; exact Hys|].
        rewrite Forall_forall in *. intros z Hz.
        apply insert_key_In in Hz. destruct Hz as [-> | Hz];
          [exact Hyk | apply Hall; exact Hz].
      * constructor; assumption.
Qed.

Lemma sort_keys_sorted (col : list K) : StronglySorted key_lt (sort_keys col).
Proof.
  induction col as [|k col IH]; simpl.
  - constructor.
  - apply insert_key_sorted. exact IH.
Qed.

Lemma sorted_NoDup (l : list K) : StronglySorted key_lt l -> NoDup l.
Proof.
  induction l as [|y ys IH]; intros Hs.
  - constructor.
  - apply StronglySorted_inv in Hs. destruct Hs as [Hys Hall].
    constructor; [|apply IH; exact Hys].
    intros Hin. rewrite Forall_forall in Hall.
    apply (key_lt_neq y y (Hall y Hin)). reflexivity.
Qed.

Lemma sort_keys_NoDup (col : list K) : NoDup (sort_keys col).
Proof. apply sorted_NoDup, sort_keys_sorted. Qed.

(** Two ascending lists of keys with the same members are the same list. *)
Lemma sorted_same_members (l1 : list K) :
  forall l2, StronglySorted key_lt l1 -> StronglySorted key_lt l2 ->
             (forall x, In x l1 <-> In x l2) -> l1 = l2.
Proof.
  induction l1 as [|a l1 IH]; intros [|b l2] H1 H2 Hmem.
  - reflexivity.
  - exfalso. apply (proj2 (Hmem b)). left; reflexivity.
  - exfalso. apply (proj1 (Hmem a)). left; reflexivity.
  - apply StronglySorted_inv in H1. destruct H1 as [H1 Ha].
    apply StronglySorted_inv in H2. destruct H2 as [H2 Hb].
    rewrite Forall_forall in Ha, Hb.
    assert (Eab : a = b).
    { destruct (proj1 (Hmem a) (or_introl eq_refl)) as [E | Hin];
        [symmetry; exact E|].
      destruct (proj2 (Hmem b) (or_introl eq_refl)) as [E | Hin'];
        [exact E|].
      exfalso. apply (key_lt_neq a a); [|reflexivity].
      apply (key_ltb_trans a b a); [apply Ha; exact Hin' | apply Hb; exact Hin]. }
    subst b. f_equal. apply IH; [exact H1 | exact H2 |].
    intros x. split; intros Hx.
    + destruct (proj1 (Hmem x) (or_intror Hx)) as [E | Hin]; [|exact Hin].
      exfalso. subst x. apply (key_lt_neq a a (Ha a Hx)). reflexivity.
    + destruct (proj2 (Hmem x) (or_intror Hx)) as [E | Hin]; [|exact Hin].
      exfalso. subst x. apply (key_lt_neq a a (Hb a Hx)). reflexivity.
Qed.

Lemma sort_keys_same_members (c1 c2 : list K) :
  (forall x, In x c1 <-> In x c2) -> sort_keys c1 = sort_keys c2.
Proof.
  intros Hmem. apply sorted_same_members; try apply sort_keys_sorted.
  intros x. rewrite !sort_keys_In. apply Hmem.
Qed.

(** The groups of a frame. *)

Lemma groupby_keys {A : Type} (key : A -> option K) (df : list A) :
  map fst (groupby key df) = sort_keys (dropna (map key df)).
Proof.
  unfold groupby. rewrite map_map. simpl. apply map_id.
Qed.

Lemma groupby_In {A : Type} (key : A -> option K) (df : list A) k g :
  In (k, g) (groupby key df) <->
  In k (dropna (map key df)) /\ g = filter (has_key key k) df.
Proof.
  unfold groupby. rewrite in_map_iff. split.
  - intros [k' [E Hk]]. inversion E; subst. split; [|reflexivity].
    apply sort_keys_In. exact Hk.
  - intros [Hk ->]. exists k. split; [reflexivity|].
    apply sort_keys_In. exact Hk.
Qed.

Lemma has_key_true {A : Type} (key : A -> option K) (k : K) (r : A) :
  has_key key k r = true <-> key r = Some k.
Proof.
  unfold has_key. destruct (key r) as [k'|].
  - rewrite key_eqb_true. split; congruence.
  - split; discriminate.
Qed.

(** Each row with a key is in the group of exactly one of the keys. *)

Lemma nat_sum_add {A : Type} (f g : A -> nat) (l : list A) :
  nat_sum (map (fun k => (f k + g k)%nat) l)
  = (nat_sum (map f l) + nat_sum (map g l))%nat.
Proof.
  induction l as [|a l IH]; simpl; [reflexivity|].
  unfold nat_sum in *. simpl. rewrite IH. lia.
Qed.

Lemma nat_sum_indicator_out (kr : K) (ks : list K) :
  ~ In kr ks ->
  nat_sum (map (fun k => if key_eqb kr k then 1%nat else 0%nat) ks) = 0%nat.
Proof.
  induction ks as [|k ks IH]; intros Hout; [reflexivity|].
  unfold nat_sum in *. simpl.
  destruct (key_eqb kr k) eqn:E.
  - exfalso. apply Hout. left. symmetry. apply key_eqb_true. exact E.
  - simpl. apply IH. intros Hc. apply Hout. right. exact Hc.
Qed.

Lemma nat_sum_indicator_in (kr : K) (ks : list K) :
  NoDup ks -> In kr ks ->
  nat_sum (map (fun k => if key_eqb kr k then 1%nat else 0%nat) ks) = 1%nat.
Proof.
  induction ks as [|k ks IH]; intros Hnd Hin; [destruct Hin|].
  inversion Hnd as [|? ? Hout Hnd']; subst.
  change (((if key_eqb kr k then 1 else 0)
           + nat_sum (map (fun k => if key_eqb kr k then 1 else 0) ks))%nat
          = 1%nat).
  destruct (key_eqb kr k) eqn:E.
  - apply key_eqb_true in E. subst k.
    rewrite (nat_sum_indicator_out kr ks Hout). reflexivity.
  - destruct Hin as [Ek | Hin].
    + subst k. assert (key_eqb kr kr = true) by (apply key_eqb_true; reflexivity).
      congruence.
    + rewrite (IH Hnd' Hin). reflexivity.
Qed.

Lemma group_sizes {A : Type} (key : A -> option K) (ks : list K) :
  NoDup ks ->
  forall df : list A,
    (forall k, In k (dropna (map key df)) -> In k ks) ->
    nat_sum (map (fun k => List.length (filter (has_key key k) df)) ks)
    = List.length (dropna (map key df)).
Proof.
  intros Hnd df. induction df as [|r df IH]; intros Hks.
  - simpl. clear Hnd Hks. induction ks as [|k ks IHk]; [reflexivity|].
    unfold nat_sum in *. simpl. exact IHk.
  - assert (Hks' : forall k, In k (dropna (map key df)) -> In k ks).
    { intros k Hk. apply Hks. apply dropna_In. right.
      apply dropna_In. exact Hk. }
    specialize (IH Hks').
    rewrite (map_ext _ (fun k => ((if has_key key k r then 1 else 0)
                                  + List.length (filter (has_key key k) df))%nat)).
    2:{ intros k. simpl. destruct (has_key key k r); reflexivity. }
    rewrite nat_sum_add, IH. simpl map. unfold has_key.
    destruct (key r) as [kr|] eqn:Ekr.
    + rewrite nat_sum_indicator_in; [reflexivity | exact Hnd |].
      apply Hks. apply dropna_In. left. simpl. rewrite Ekr. reflexivity.
    + replace (nat_sum (map (fun _ : K => 0%nat) ks)) with 0%nat; [reflexivity|].
      clear. induction ks as [|k ks IHk]; [reflexivity|].
      unfold nat_sum in *. simpl. exact IHk.
Qed.
End GroupByFacts.

(** ** Sorted lists, reversed and mapped *)

Lemma sorted_rev_flip {A : Type} (R : A -> A -> Prop) (l : list A) :
  StronglySorted R l -> StronglySorted (fun a b => R b a) (rev l).
Proof.
  induction l as [|y ys IH]; simpl; intros Hs.
  - constructor.
  - apply StronglySorted_inv in Hs. destruct Hs as [Hys Hy].
    assert (Hsnoc : forall l x, StronglySorted (fun a b => R b a) l ->
                                Forall (fun z => R x z) l ->
                                StronglySorted (fun a b => R b a) (l ++ [x])).
    { clear. induction l as [|z zs IHz]; simpl; intros x Hs Hall.
      - constructor; constructor.
      - apply StronglySorted_inv in Hs. destruct Hs as [Hzs Hz].
        inversion Hall as [|? ? Hxz Hall']; subst.
        constructor; [apply IHz; assumption|].
        apply Forall_app. split; [exact Hz | constructor; [exact Hxz | constructor]]. }
    apply Hsnoc; [apply IH; exact Hys|].
    rewrite Forall_forall in *. intros z Hz. apply in_rev in Hz. exact (Hy z Hz).
Qed.

(** ** [sort_values(ascending=False)] gives the same pairs, largest first *)

Section SortValuesFacts.
Context {L : Type}.

Lemma insert_asc_perm (x : L * nat) (l : list (L * nat)) :
  Permutation (x :: l) (insert_asc x l).
Proof.
  induction l as [|y ys IH]; simpl.
  - apply Permutation_refl.
  - destruct (Nat.leb (snd x) (snd y)).
    + apply Permutation_refl.
    + eapply perm_trans; [apply perm_swap|]. apply perm_skip. exact IH.
Qed.

Lemma argsort_perm (s : list (L * nat)) : Permutation s (argsort s).
Proof.
  induction s as [|x s IH]; simpl.
  - constructor.
  - eapply perm_trans; [apply perm_skip; exact IH | apply insert_asc_perm].
Qed.

Lemma sort_values_desc_perm (s : list (L * nat)) :
  Permutation s (sort_values_desc s).
Proof.
  unfold sort_values_desc.
  eapply perm_trans; [apply Permutation_rev|].
  eapply perm_trans; [apply argsort_perm|]. apply Permutation_rev.
Qed.

Lemma insert_asc_sorted (x : L * nat) (l : list (L * nat)) :
  StronglySorted count_le l -> StronglySorted count_le (insert_asc x l).
Proof.
  induction l as [|y ys IH]; simpl; intros Hs.
  - constructor; constructor.
  - apply StronglySorted_inv in Hs. destruct Hs as [Hys Hall].
    destruct (Nat.leb (snd x) (snd y)) eqn:E.
    + apply Nat.leb_le in E. constructor; [constructor; assumption|].
      constructor; [exact E|].
      rewrite Forall_forall in *. intros z Hz. specialize (Hall z Hz).
      unfold count_le in *. lia.
    + apply Nat.leb_gt in E. constructor; [apply IH; exact Hys|].
      rewrite Forall_forall in *. intros z Hz.
      apply (Permutation_in _ (Permutation_sym (insert_asc_perm x ys))) in Hz.
      destruct Hz as [<- | Hz]; [unfold count_le; lia | apply Hall; exact Hz].
Qed.

Lemma argsort_sorted (s : list (L * nat)) : StronglySorted count_le (argsort s).
Proof.
  induction s as [|x s IH]; simpl.
  - constructor.
  - apply insert_asc_sorted. exact IH.
Qed.

Lemma sort_values_desc_sorted (s : list (L * nat)) :
  StronglySorted count_ge (sort_values_desc s).
Proof.
  unfold sort_values_desc.
  apply (sorted_rev_flip count_le), argsort_sorted.
Qed.
End SortValuesFacts.

Lemma nat_sum_perm (l1 l2 : list nat) :
  Permutation l1 l2 -> nat_sum l1 = nat_sum l2.
Proof.
  unfold nat_sum. induction 1; simpl; lia.
Qed.

(** ** The date-range filter *)

Lemma main_df_In (df : list OrderLine) (start_date end_date : Z) (r : OrderLine) :
  In r (main_df df start_date end_date) <->
  In r df /\
  exists t, order_purchase_timestamp r = Some t /\
            to_datetime_date start_date <= t <= to_datetime_date end_date.
Proof.
  unfold main_df. rewrite filter_In, andb_true_iff. unfold ts_ge, ts_le.
  destruct (order_purchase_timestamp r) as [t|].
  - rewrite !Z.leb_le. split.
    + intros [Hin [H1 H2]]. split; [exact Hin|]. exists t. split; [reflexivity | lia].
    + intros [Hin [t' [E Ht]]]. inversion E; subst. split; [exact Hin | lia].
  - split.
    + intros [_ [H1 _]]. discriminate.
    + intros [_ [t [E _]]]. discriminate.
Qed.

(** The lower bound of the filter is a bound on the day. *)
Lemma start_bound_by_day (d t : Z) : to_datetime_date d <= t <-> d <= day_of t.
Proof.
  unfold to_datetime_date, day_of, ns_per_day.
  Z.to_euclidean_division_equations. lia.
Qed.

(** The upper bound is not: on the end day only midnight passes. *)
Lemma end_bound_on_end_day (d t : Z) :
  day_of t = d -> (t <= to_datetime_date d <-> t = to_datetime_date d).
Proof.
  unfold to_datetime_date, day_of, ns_per_day.
  Z.to_euclidean_division_equations. lia.
Qed.

Lemma main_df_valid_timestamp (df : list OrderLine) (s e : Z) (r : OrderLine) :
  In r (main_df df s e) -> order_purchase_timestamp r <> None.
Proof.
  rewrite main_df_In. intros [_ [t [E _]]]. congruence.
Qed.

(** C1 (the code misses the end day): a line bought at 10:00 on
    2018-01-02 has its calendar day inside the range 2018-01-01 to
    2018-01-02, both ends included, and the filter leaves it out, because
    line 78 compares the full timestamp with midnight of the end date.  The
    same happens with the range the date picker starts with, from the day of
    the earliest to the day of the latest purchase, here 2018-01-02 for
    both. *)
Theorem main_df_drops_line_on_end_day :
  let r := line "A" "c1" "SP" (Some "tech"%string) (at_time 17533 10) 10 in
  purchase_day r = Some 17533 /\
  17532 <= 17533 <= 17533 /\
  main_df [r] 17532 17533 = [] /\
  option_map day_of (min_date [r]) = Some 17533 /\
  option_map day_of (max_date [r]) = Some 17533 /\
  main_df [r] 17533 17533 = [].
Proof.
  repeat split; try (vm_compute; reflexivity); lia.
Qed.

(** ** Rows without a timestamp *)

Lemma groupby_member {K A : Type} `{KeyOrdLaws K} (key : A -> option K)
      (df : list A) (r : A) (k : K) :
  In r df -> key r = Some k ->
  exists g, In (k, g) (groupby key df) /\ In r g.
Proof.
  intros Hin Hk. exists (filter (has_key key k) df). split.
  - apply groupby_In. split; [|reflexivity].
    apply dropna_In. rewrite <- Hk. apply in_map. exact Hin.
  - apply filter_In. split; [exact Hin | apply has_key_true; exact Hk].
Qed.

Lemma resample_D_bins (df : list OrderLine) (b : Z * list OrderLine) :
  In b (resample_D df) -> snd b = filter (on_day (fst b)) df.
Proof.
  unfold resample_D. destruct (dropna (map purchase_day df)); [intros []|].
  rewrite in_map_iff. intros [d' [<- _]]. reflexivity.
Qed.

Lemma create_bystate_df_states (df : list OrderLine) :
  map fst (create_bystate_df df) = sort_keys (map customer_state df).
Proof.
  unfold create_bystate_df, reset_index. rewrite map_map.
  transitivity (map fst (groupby (fun r => Some (customer_state r)) df)).
  { apply map_ext. intros g. reflexivity. }
  rewrite groupby_keys. f_equal. apply dropna_map_Some.
Qed.

Lemma create_rfm_df_customers (df : list OrderLine) (orders : list Order) :
  map rfm_customer_id (fst (create_rfm_df df orders))
  = sort_keys (map customer_id df).
Proof.
  unfold create_rfm_df. cbv zeta. unfold fst at 1. rewrite !map_map.
  transitivity (map fst (groupby (fun r => Some (customer_id r)) df)).
  { apply map_ext. intros g. reflexivity. }
  rewrite groupby_keys. f_equal. apply dropna_map_Some.
Qed.

Lemma create_sum_order_items_df_categories (df : list OrderLine) (c : string) :
  In c (map fst (create_sum_order_items_df df)) <->
  In (Some c) (map product_category_name_english df).
Proof.
  unfold create_sum_order_items_df, reset_index.
  set (s := map _ (groupby product_category_name_english df)).
  assert (E : map fst s = sort_keys (dropna (map product_category_name_english df))).
  { unfold s. rewrite map_map. rewrite <- groupby_keys.
    apply map_ext. intros g. reflexivity. }
  rewrite <- dropna_In, <- (sort_keys_In c (dropna _)), <- E.
  split; apply Permutation_in, Permutation_map.
  - apply Permutation_sym, sort_values_desc_perm.
  - apply sort_values_desc_perm.
Qed.

(** C2, as the spec states it, fails: a row without a timestamp is not part
    of the filtered relation, and the frames built from it do not count
    it. *)
Lemma null_timestamp_row_not_retained :
  let r := line "B" "c2" "RJ" (Some "home"%string) None 20 in
  In r [r] /\
  main_df [r] 17532 17534 = [] /\
  create_sum_order_items_df (main_df [r] 17532 17534) = [] /\
  create_bystate_df (main_df [r] 17532 17534) = [] /\
  fst (create_rfm_df (main_df [r] 17532 17534) []) = [].
Proof.
  repeat split; try (vm_compute; reflexivity). left; reflexivity.
Qed.

(** ** The daily frame *)

Lemma day_range_In (lo hi d : Z) : In d (day_range lo hi) <-> lo <= d <= hi.
Proof.
  unfold day_range. rewrite in_map_iff. split.
  - intros [i [<- Hi]]. apply in_seq in Hi. lia.
  - intros Hd. exists (Z.to_nat (d - lo)). split; [lia|].
    apply in_seq. lia.
Qed.

Lemma day_range_NoDup (lo hi : Z) : NoDup (day_range lo hi).
Proof.
  unfold day_range. apply Finite.Injective_map_NoDup; [|apply seq_NoDup].
  intros i j Hij. lia.
Qed.

Lemma to_datetime_date_inj (d1 d2 : Z) :
  to_datetime_date d1 = to_datetime_date d2 -> d1 = d2.
Proof. unfold to_datetime_date, ns_per_day. lia. Qed.

Lemma purchase_day_In (df : list OrderLine) (d : Z) :
  In d (dropna (map purchase_day df)) <->
  exists r, In r df /\ purchase_day r = Some d.
Proof.
  rewrite dropna_In, in_map_iff. split; intros [r [H1 H2]]; exists r; tauto.
Qed.

(** The days of the bins: every day from the first to the last day on which
    a row falls. *)
Lemma resample_D_days (df : list OrderLine) (d : Z) :
  In d (map fst (resample_D df)) <->
  exists d1 d2, In d1 (dropna (map purchase_day df)) /\
                In d2 (dropna (map purchase_day df)) /\ d1 <= d <= d2.
Proof.
  unfold resample_D. destruct (dropna (map purchase_day df)) as [|d0 ds].
  - simpl. split; [intros [] | intros [d1 [d2 [[] _]]]].
  - rewrite map_map. simpl map. rewrite map_id, day_range_In.
    destruct (fold_min_le d0 ds) as [Hmin0 Hmin].
    destruct (fold_max_ge d0 ds) as [Hmax0 Hmax].
    split.
    + intros Hd. exists (fold_right Z.min d0 ds), (fold_right Z.max d0 ds).
      split; [apply fold_min_In|]. split; [apply fold_max_In | exact Hd].
    + intros [d1 [d2 [H1 [H2 Hd]]]].
      assert (fold_right Z.min d0 ds <= d1)
        by (destruct H1 as [<- | H1]; [exact Hmin0 | apply Hmin; exact H1]).
      assert (d2 <= fold_right Z.max d0 ds)
        by (destruct H2 as [<- | H2]; [exact Hmax0 | apply Hmax; exact H2]).
      lia.
Qed.

Lemma resample_D_NoDup (df : list OrderLine) : NoDup (map fst (resample_D df)).
Proof.
  unfold resample_D. destruct (dropna (map purchase_day df)) as [|d0 ds].
  - constructor.
  - rewrite map_map. simpl map. rewrite map_id. apply day_range_NoDup.
Qed.

Lemma create_daily_orders_df_dates (df : list OrderLine) :
  map d_order_purchase_timestamp (create_daily_orders_df df)
  = map to_datetime_date (map fst (resample_D df)).
Proof.
  unfold create_daily_orders_df. rewrite !map_map. reflexivity.
Qed.

(** C3, as the code has it: the daily frame has exactly one row for every
    calendar day from the first to the last day on which a row with a valid
    timestamp falls, and a row for no other day.  Each row holds the number
    of distinct orders and the summed price of the lines of its day; a day
    of the range without any line gets a row with 0 orders and 0 revenue. *)
Theorem daily_rows_cover_range (df : list OrderLine) :
  NoDup (map d_order_purchase_timestamp (create_daily_orders_df df)) /\
  (forall m, In m (create_daily_orders_df df) ->
             exists d, d_order_purchase_timestamp m = to_datetime_date d /\
                       order_count m
                       = series_nunique string_dec
                                        (map order_id (filter (on_day d) df)) /\
                       revenue m
                       = series_sum (map price (filter (on_day d) df))) /\
  (forall d, In (to_datetime_date d)
                (map d_order_purchase_timestamp (create_daily_orders_df df)) <->
             exists r1 r2 d1 d2,
               In r1 df /\ purchase_day r1 = Some d1 /\
               In r2 df /\ purchase_day r2 = Some d2 /\ d1 <= d <= d2) /\
  (forall d, In (to_datetime_date d)
                (map d_order_purchase_timestamp (create_daily_orders_df df)) ->
             (forall r, In r df -> purchase_day r <> Some d) ->
             In (mkDailyRow (to_datetime_date d) 0 0) (create_daily_orders_df df)).
Proof.
  assert (Hrow : forall m, In m (create_daily_orders_df df) ->
             exists d, d_order_purchase_timestamp m = to_datetime_date d /\
                       order_count m
                       = series_nunique string_dec
                                        (map order_id (filter (on_day d) df)) /\
                       revenue m
                       = series_sum (map price (filter (on_day d) df))).
  { intros m Hm. unfold create_daily_orders_df in Hm.
    apply in_map_iff in Hm. destruct Hm as [b [<- Hb]].
    exists (fst b). simpl. rewrite (resample_D_bins df b Hb). repeat split. }
  split; [|split; [exact Hrow|split]].
  - rewrite create_daily_orders_df_dates.
    apply Finite.Injective_map_NoDup; [|apply resample_D_NoDup].
    intros x y. apply to_datetime_date_inj.
  - intros d. rewrite create_daily_orders_df_dates. split.
    + intros Hd. apply in_map_iff in Hd. destruct Hd as [d' [E Hd']].
      apply to_datetime_date_inj in E. subst d'.
      apply resample_D_days in Hd'. destruct Hd' as [d1 [d2 [H1 [H2 Hd]]]].
      apply purchase_day_In in H1. destruct H1 as [r1 [Hr1 E1]].
      apply purchase_day_In in H2. destruct H2 as [r2 [Hr2 E2]].
      exists r1, r2, d1, d2. tauto.
    + intros [r1 [r2 [d1 [d2 [Hr1 [E1 [Hr2 [E2 Hd]]]]]]]].
      apply in_map. apply resample_D_days. exists d1, d2.
      split; [apply purchase_day_In; exists r1; tauto|].
      split; [apply purchase_day_In; exists r2; tauto | exact Hd].
  - intros d Hd Hnone. apply in_map_iff in Hd. destruct Hd as [m [E Hm]].
    destruct (Hrow m Hm) as [d' [E' [Hc Hr]]].
    assert (d' = d) by (apply to_datetime_date_inj; congruence). subst d'.
    assert (Hempty : filter (on_day d) df = []).
    { clear -Hnone. induction df as [|r df IH]; [reflexivity|]. simpl.
      assert (Hr : on_day d r = false).
      { unfold on_day. specialize (Hnone r (or_introl eq_refl)).
        destruct (purchase_day r) as [d'|]; [|reflexivity].
        apply Z.eqb_neq. congruence. }
      rewrite Hr. apply IH. intros r' Hr'. apply Hnone. right. exact Hr'. }
    rewrite Hempty in Hc, Hr. simpl in Hc, Hr.
    destruct m as [t c v]. simpl in *. subst. exact Hm.
Qed.

Lemma daily_rows_cover_range_witness :
  let df := [line "A" "c1" "SP" (Some "tech"%string) (at_time 17532 10) 10;
             line "B" "c2" "RJ" (Some "home"%string) (at_time 17534 11) 20] in
  In (mkDailyRow (to_datetime_date 17533) 0 0) (create_daily_orders_df df).
Proof.
  intros df.
  destruct (daily_rows_cover_range df) as [_ [_ [_ Hgap]]].
  apply Hgap.
  - vm_compute. right; left; reflexivity.
  - intros r [<- | [<- | []]]; vm_compute; discriminate.
Defined.

(** C3, as the spec states it, fails: no line falls on 2018-01-02, and the
    daily frame has a row for that day. *)
Lemma daily_gap_is_filled :
  let df := [line "A" "c1" "SP" (Some "tech"%string) (at_time 17532 10) 10;
             line "B" "c2" "RJ" (Some "home"%string) (at_time 17534 11) 20] in
  (forall r, In r df -> purchase_day r <> Some 17533) /\
  In (to_datetime_date 17533)
     (map d_order_purchase_timestamp (create_daily_orders_df df)).
Proof.
  split.
  - intros r [<- | [<- | []]]; vm_compute; discriminate.
  - vm_compute. right; left; reflexivity.
Qed.

(** ** The category frame *)

Lemma dropna_length {A : Type} (col : list (option A)) :
  (List.length (dropna col) <= List.length col)%nat /\
  (In None col -> (List.length (dropna col) < List.length col)%nat).
Proof.
  induction col as [|c col [IH1 IH2]].
  - simpl. split; [lia | intros []].
  - change (dropna (c :: col)) with (dropna ([c] ++ col)).
    rewrite dropna_app, length_app. destruct c as [v|]; simpl.
    + split; [lia|]. intros [E | Hin]; [discriminate|]. specialize (IH2 Hin). lia.
    + split; lia.
Qed.

Lemma create_sum_order_items_df_perm (df : list OrderLine) :
  Permutation (category_counts df) (create_sum_order_items_df df).
Proof.
  unfold create_sum_order_items_df, reset_index. apply sort_values_desc_perm.
Qed.

Lemma category_counts_sum (df : list OrderLine) :
  nat_sum (map snd (category_counts df))
  = List.length (dropna (map product_category_name_english df)).
Proof.
  unfold category_counts, groupby. rewrite !map_map. simpl.
  rewrite <- (group_sizes product_category_name_english
                (sort_keys (dropna (map product_category_name_english df)))).
  - f_equal. apply map_ext. intros k. unfold series_count. apply length_map.
  - apply sort_keys_NoDup.
  - intros k Hk. apply sort_keys_In. exact Hk.
Qed.

(** C4, as the code has it: [groupby] drops the rows whose category is null,
    so they form no bucket; every bucket is the category of some row, and
    the counts add up to the number of rows with a category, which is less
    than the number of rows as soon as one category is null. *)
Theorem category_counts_total (df : list OrderLine) :
  (forall c, In c (map fst (create_sum_order_items_df df)) <->
             exists r, In r df /\ product_category_name_english r = Some c) /\
  nat_sum (map snd (create_sum_order_items_df df))
  = List.length (dropna (map product_category_name_english df)) /\
  ((exists r, In r df /\ product_category_name_english r = None) ->
   (nat_sum (map snd (create_sum_order_items_df df)) < List.length df)%nat) /\
  ((forall r, In r df -> product_category_name_english r <> None) ->
   nat_sum (map snd (create_sum_order_items_df df)) = List.length df).
Proof.
  assert (Hsum : nat_sum (map snd (create_sum_order_items_df df))
                 = List.length (dropna (map product_category_name_english df))).
  { rewrite <- category_counts_sum. apply nat_sum_perm, Permutation_map.
    apply Permutation_sym, create_sum_order_items_df_perm. }
  split; [|split; [exact Hsum | split]].
  - intros c. rewrite create_sum_order_items_df_categories, in_map_iff.
    split; intros [r [H1 H2]]; exists r; tauto.
  - intros [r [Hin Hnull]]. rewrite Hsum.
    rewrite <- (length_map product_category_name_english df).
    apply dropna_length. rewrite <- Hnull. apply in_map. exact Hin.
  - intros Hall. rewrite Hsum. clear Hsum.
    induction df as [|r df IH]; [reflexivity|].
    simpl map. change (dropna (?c :: ?l)) with (dropna ([c] ++ l)).
    rewrite dropna_app, length_app.
    rewrite IH by (intros r' Hr'; apply Hall; right; exact Hr').
    destruct (product_category_name_english r) eqn:E; [reflexivity|].
    exfalso. apply (Hall r); [left; reflexivity | exact E].
Qed.

Lemma category_counts_total_witness :
  let df := [line "A" "c1" "SP" (Some "tech"%string) (at_time 17532 10) 10;
             line "B" "c2" "RJ" None (at_time 17532 11) 20] in
  (nat_sum (map snd (create_sum_order_items_df df)) < List.length df)%nat.
Proof.
  intros df.
  destruct (category_counts_total df) as [_ [_ [Hlt _]]].
  apply Hlt. exists (line "B" "c2" "RJ" None (at_time 17532 11) 20).
  split; [right; left; reflexivity | reflexivity].
Defined.

(** C4, as the spec states it, fails: the line without a category forms no
    bucket, and the counts add up to 1 for a relation of 2 rows. *)
Lemma null_category_is_dropped :
  let df := [line "A" "c1" "SP" (Some "tech"%string) (at_time 17532 10) 10;
             line "B" "c2" "RJ" None (at_time 17532 11) 20] in
  create_sum_order_items_df df = [("tech"%string, 1%nat)] /\
  nat_sum (map snd (create_sum_order_items_df df)) <> List.length df.
Proof.
  split; [vm_compute; reflexivity | vm_compute; discriminate].
Qed.

(** ** The order of the category frame *)

Lemma filter_length_perm {A : Type} (p : A -> bool) (l l' : list A) :
  Permutation l l' -> List.length (filter p l) = List.length (filter p l').
Proof.
  induction 1 as [| x l l' _ IH | x y l | l l' l'' _ IH1 _ IH2]; simpl.
  - reflexivity.
  - destruct (p x); simpl; congruence.
  - destruct (p x), (p y); reflexivity.
  - congruence.
Qed.

Lemma category_counts_perm (df df' : list OrderLine) :
  Permutation df df' -> category_counts df = category_counts df'.
Proof.
  intros Hp. unfold category_counts, groupby. rewrite !map_map. simpl.
  assert (E : sort_keys (dropna (map product_category_name_english df))
              = sort_keys (dropna (map product_category_name_english df'))).
  { apply sort_keys_same_members. intros c. rewrite !dropna_In.
    split; apply Permutation_in, Permutation_map;
      [exact Hp | apply Permutation_sym; exact Hp]. }
  rewrite E. apply map_ext. intros k. f_equal.
  unfold series_count. rewrite !length_map. apply filter_length_perm. exact Hp.
Qed.

Lemma category_counts_keys (df : list OrderLine) :
  map fst (category_counts df)
  = sort_keys (dropna (map product_category_name_english df)).
Proof.
  unfold category_counts. rewrite map_map. rewrite <- groupby_keys.
  apply map_ext. intros g. reflexivity.
Qed.

(** C5, as the code has it: the category frame is sorted in descending order
    of the count.  The order among equal counts does not follow the order of
    first appearance: [groupby] lists the categories in ascending order
    before the sort, whatever the order of the rows, so the frame is the
    same for a reordered relation, and that is so for whatever order the
    sort leaves equal counts in. *)
Theorem category_ranking_order (df : list OrderLine) :
  StronglySorted count_ge (create_sum_order_items_df df) /\
  (forall df', Permutation df df' ->
               create_sum_order_items_df df' = create_sum_order_items_df df) /\
  (forall (sort_values : list (string * nat) -> list (string * nat)) df',
      Permutation df df' ->
      reset_index (sort_values (category_counts df'))
      = reset_index (sort_values (category_counts df))).
Proof.
  split; [|split].
  - apply sort_values_desc_sorted.
  - intros df' Hp. unfold create_sum_order_items_df, reset_index.
    change (sort_values_desc (category_counts df')
            = sort_values_desc (category_counts df)).
    rewrite (category_counts_perm df df' Hp). reflexivity.
  - intros sort_values df' Hp.
    rewrite (category_counts_perm df df' Hp). reflexivity.
Qed.

Lemma category_ranking_order_witness :
  let df := [line "A" "c1" "SP" (Some "tech"%string) (at_time 17532 10) 10;
             line "B" "c2" "RJ" (Some "home"%string) (at_time 17532 11) 20] in
  let df' := [line "B" "c2" "RJ" (Some "home"%string) (at_time 17532 11) 20;
              line "A" "c1" "SP" (Some "tech"%string) (at_time 17532 10) 10] in
  create_sum_order_items_df df' = create_sum_order_items_df df /\
  reset_index (argsort (category_counts df'))
  = reset_index (argsort (category_counts df)).
Proof.
  intros df df'.
  destruct (category_ranking_order df) as [_ [Hperm Hany]].
  split; [apply Hperm | apply (Hany argsort)]; apply perm_swap.
Defined.

(** C5, as the spec states it, fails: "tech" is seen before "home", both have
    one line, and the frame lists "home" first. *)
Lemma ties_not_by_first_seen :
  let df := [line "A" "c1" "SP" (Some "tech"%string) (at_time 17532 10) 10;
             line "B" "c2" "RJ" (Some "home"%string) (at_time 17532 11) 20] in
  first_seen (dropna (map product_category_name_english df))
  = ["tech"%string; "home"%string] /\
  create_sum_order_items_df df = [("home"%string, 1%nat); ("tech"%string, 1%nat)] /\
  ties_by_first_seen df (create_sum_order_items_df df) = false.
Proof.
  repeat split; vm_compute; reflexivity.
Qed.

(** Whatever order a sort leaves equal counts in, the order of first
    appearance cannot be the rule: the two relations below hold the same
    lines in the two orders, so they get the same frame, and it cannot list
    both "tech" first and "home" first. *)
Lemma ties_by_first_seen_fails_for_any_sort
      (sort_values : list (string * nat) -> list (string * nat)) :
  (forall s, Permutation s (sort_values s)) ->
  let a := line "A" "c1" "SP" (Some "tech"%string) (at_time 17532 10) 10 in
  let b := line "B" "c2" "RJ" (Some "home"%string) (at_time 17532 11) 20 in
  ties_by_first_seen [a; b] (reset_index (sort_values (category_counts [a; b])))
  = false \/
  ties_by_first_seen [b; a] (reset_index (sort_values (category_counts [b; a])))
  = false.
Proof.
  intros Hperm a b.
  assert (E1 : category_counts [a; b]
               = [("home"%string, 1%nat); ("tech"%string, 1%nat)])
    by (vm_compute; reflexivity).
  assert (E2 : category_counts [b; a]
               = [("home"%string, 1%nat); ("tech"%string, 1%nat)])
    by (vm_compute; reflexivity).
  rewrite E1, E2. unfold reset_index.
  pose proof (Hperm [("home"%string, 1%nat); ("tech"%string, 1%nat)]) as Hp.
  apply Permutation_length_2_inv in Hp. destruct Hp as [-> | ->].
  - left. vm_compute. reflexivity.
  - right. vm_compute. reflexivity.
Qed.

(** ** The state frame *)

(** C10: the rows of the state frame come in ascending order of the state
    code, one row per state of the relation. *)
Theorem bystate_sorted_by_state (df : list OrderLine) :
  StronglySorted (fun a b => String.ltb a b = true)
                 (map fst (create_bystate_df df)) /\
  (forall s, In s (map fst (create_bystate_df df)) <->
             In s (map customer_state df)).
Proof.
  rewrite create_bystate_df_states. split.
  - pose proof (sort_keys_sorted (map customer_state df)) as Hs.
    unfold key_lt in Hs. exact Hs.
  - intros s. apply sort_keys_In.
Qed.

(** ** The RFM frame *)

Lemma orders_df_reassigned (orders : list Order) :
  map (fun o => set_order_purchase_timestamp
                  o (to_datetime (o_order_purchase_timestamp o))) orders
  = orders.
Proof.
  induction orders as [|o orders IH]; simpl; [reflexivity|].
  rewrite IH. destruct o; reflexivity.
Qed.


Lemma create_rfm_df_rows (df : list OrderLine) (orders : list Order) (r : RfmRow) :
  In r (fst (create_rfm_df df orders)) <->
  exists k,
    In k (map customer_id df) /\
    let g := filter (has_key (fun x => Some (customer_id x)) k) df in
    let last := series_max (map order_purchase_timestamp g) in
    r = {| rfm_customer_id := k;
           max_order_timestamp := last;
           frequency := series_nunique string_dec (map order_id g);
           monetary := series_sum (map price g);
           recency :=
             dt_days (timedelta
                        (series_max (map o_order_purchase_timestamp orders))
                        last) |}.
Proof.
  unfold create_rfm_df. cbv zeta. unfold fst at 1.
  rewrite orders_df_reassigned, !map_map. unfold groupby. rewrite map_map.
  rewrite dropna_map_Some, in_map_iff. unfold to_datetime. simpl.
  split.
  - intros [k [<- Hk]]. exists k. split; [|reflexivity].
    apply sort_keys_In. exact Hk.
  - intros [k [Hk ->]]. exists k. split; [reflexivity|].
    apply sort_keys_In. exact Hk.
Qed.

(** C6: the recency of every row of the RFM frame is the difference between
    the latest purchase timestamp of the whole orders table and the last
    purchase of the customer among the rows given, in whole days rounded
    down.  The reference is taken from the orders table alone, so it is the
    same for every relation passed in (every date range); a last purchase
    after the reference gives a negative recency, and a customer without any
    valid timestamp gets a null recency. *)
Theorem recency_from_global_max (df : list OrderLine) (orders : list Order)
        (g : Z) (r : RfmRow) :
  series_max (map o_order_purchase_timestamp orders) = Some g ->
  In r (fst (create_rfm_df df orders)) ->
  max_order_timestamp r
  = series_max (map order_purchase_timestamp
                    (filter (has_key (fun x => Some (customer_id x))
                                     (rfm_customer_id r)) df)) /\
  (max_order_timestamp r = None -> recency r = None) /\
  (forall t, max_order_timestamp r = Some t ->
             exists q, recency r = Some q /\
                       q * ns_per_day <= g - t < (q + 1) * ns_per_day /\
                       (g < t -> q < 0)).
Proof.
  intros Hg Hr. apply create_rfm_df_rows in Hr. destruct Hr as [k [_ Hr]].
  cbv zeta in Hr. subst r. simpl. rewrite Hg. split; [reflexivity|]. split.
  - intros ->. reflexivity.
  - intros t ->. simpl. exists ((g - t) / ns_per_day). split; [reflexivity|].
    unfold ns_per_day. Z.to_euclidean_division_equations. lia.
Qed.

Lemma recency_from_global_max_witness :
  let df := [line "A" "c1" "SP" (Some "tech"%string) (at_time 17532 10) 10;
             line "B" "c1" "SP" (Some "home"%string) (at_time 17534 11) 20] in
  let orders := [mkOrder "A" (at_time 17533 1) None None None] in
  exists r, In r (fst (create_rfm_df df orders)) /\
            max_order_timestamp r = at_time 17534 11 /\
            exists q, recency r = Some q /\ q < 0.
Proof.
  intros df orders.
  exists (mkRfmRow "c1" (at_time 17534 11) 2 30 (Some (-2))).
  assert (Hin : In (mkRfmRow "c1" (at_time 17534 11) 2 30 (Some (-2)))
                   (fst (create_rfm_df df orders)))
    by (vm_compute; left; reflexivity).
  split; [exact Hin|]. split; [reflexivity|].
  destruct (recency_from_global_max df orders (17533 * ns_per_day + 1 * hour) _
                                    eq_refl Hin) as [_ [_ Hq]].
  destruct (Hq (17534 * ns_per_day + 11 * hour) eq_refl) as [q [Eq [_ Hneg]]].
  exists q. split; [exact Eq|]. apply Hneg. vm_compute. reflexivity.
Defined.

(** C8, as the code has it: with an empty orders table the function does not
    stop; it returns one row per customer of the relation, each with a null
    recency. *)
Theorem rfm_with_no_orders (df : list OrderLine) :
  map rfm_customer_id (fst (create_rfm_df df [])) = sort_keys (map customer_id df) /\
  (forall r, In r (fst (create_rfm_df df [])) -> recency r = None) /\
  (df <> [] -> fst (create_rfm_df df []) <> []).
Proof.
  split; [apply create_rfm_df_customers|]. split.
  - intros r Hr. apply create_rfm_df_rows in Hr. destruct Hr as [k [_ ->]].
    reflexivity.
  - intros Hne Hnil. destruct df as [|x df]; [apply Hne; reflexivity|].
    assert (Hin : In (customer_id x)
                     (map rfm_customer_id (fst (create_rfm_df (x :: df) [])))).
    { rewrite create_rfm_df_customers. apply sort_keys_In. left. reflexivity. }
    rewrite Hnil in Hin. destruct Hin.
Qed.

Lemma rfm_with_no_orders_witness :
  fst (create_rfm_df
         [line "A" "c1" "SP" (Some "tech"%string) (at_time 17532 10) 10] [])
  <> [].
Proof.
  apply (rfm_with_no_orders
           [line "A" "c1" "SP" (Some "tech"%string) (at_time 17532 10) 10]).
  discriminate.
Defined.

(** C8, as the spec states it, fails: with no order at all the RFM frame is
    returned, with a row for the customer. *)
Lemma rfm_returned_without_orders :
  fst (create_rfm_df
         [line "A" "c1" "SP" (Some "tech"%string) (at_time 17532 10) 10] [])
  = [mkRfmRow "c1" (at_time 17532 10) 1 10 None].
Proof. vm_compute. reflexivity. Qed.

(** ** The source relations after a run *)







(** ** The total of the daily order counts *)

Lemma day_order_pairs_In (df : list OrderLine) (d : Z) (o : string) :
  In (d, o) (day_order_pairs df) <->
  exists r, In r df /\ purchase_day r = Some d /\ order_id r = o.
Proof.
  unfold day_order_pairs. rewrite dropna_In, in_map_iff. split.
  - intros [r [E Hr]]. exists r. split; [exact Hr|].
    destruct (purchase_day r) as [d'|]; simpl in E; [|discriminate].
    inversion E; subst. split; reflexivity.
  - intros [r [Hr [Ed Eo]]]. exists r. split; [|exact Hr].
    rewrite Ed, Eo. reflexivity.
Qed.

Lemma on_day_true (d : Z) (r : OrderLine) :
  on_day d r = true <-> purchase_day r = Some d.
Proof.
  unfold on_day. destruct (purchase_day r) as [d'|].
  - rewrite Z.eqb_eq. split; congruence.
  - split; discriminate.
Qed.

(** The distinct orders of a day are the distinct (day, order) pairs of that
    day. *)
Lemma orders_of_day (df : list OrderLine) (d : Z) :
  series_nunique string_dec (map order_id (filter (on_day d) df))
  = List.length (filter (has_key (fun p => Some (fst p)) d)
                        (nodup day_order_dec (day_order_pairs df))).
Proof.
  unfold series_nunique.
  set (P := nodup day_order_dec (day_order_pairs df)).
  rewrite <- (length_map snd (filter _ P)).
  apply Permutation_length, NoDup_Permutation.
  - apply NoDup_nodup.
  - apply Finite.Injective_map_NoDup_in.
    + intros [d1 o1] [d2 o2] H1 H2 E. simpl in E. subst o2.
      apply filter_In in H1. destruct H1 as [_ H1].
      apply filter_In in H2. destruct H2 as [_ H2].
      apply has_key_true in H1. apply has_key_true in H2. simpl in *.
      congruence.
    + apply NoDup_filter, NoDup_nodup.
  - intros o. rewrite nodup_In, !in_map_iff. split.
    + intros [r [Eo Hr]]. apply filter_In in Hr. destruct Hr as [Hr Hd].
      apply on_day_true in Hd. exists (d, o). split; [reflexivity|].
      apply filter_In. split; [|apply has_key_true; reflexivity].
      unfold P. apply nodup_In. apply day_order_pairs_In. exists r. tauto.
    + intros [[d' o'] [Eo Hp]]. simpl in Eo. subst o'.
      apply filter_In in Hp. destruct Hp as [Hp Hd].
      apply has_key_true in Hd. simpl in Hd. inversion Hd; subst d'.
      unfold P in Hp. apply nodup_In in Hp. apply day_order_pairs_In in Hp.
      destruct Hp as [r [Hr [Ed Eo]]]. exists r. split; [exact Eo|].
      apply filter_In. split; [exact Hr | apply on_day_true; exact Ed].
Qed.

(** The daily counts add up to the number of distinct (day, order) pairs. *)
Lemma total_orders_day_order_pairs (df : list OrderLine) :
  total_orders (create_daily_orders_df df)
  = series_nunique day_order_dec (day_order_pairs df).
Proof.
  unfold total_orders, create_daily_orders_df. rewrite map_map. simpl.
  transitivity
    (nat_sum (map (fun d => List.length
                              (filter (has_key (fun p => Some (fst p)) d)
                                      (nodup day_order_dec (day_order_pairs df))))
                  (map fst (resample_D df)))).
  - rewrite map_map. f_equal. apply map_ext_in. intros b Hb.
    rewrite (resample_D_bins df b Hb). apply orders_of_day.
  - rewrite (group_sizes (fun p : Z * string => Some (fst p))).
    + rewrite dropna_map_Some, length_map. reflexivity.
    + apply resample_D_NoDup.
    + intros d Hd. rewrite dropna_map_Some in Hd. apply in_map_iff in Hd.
      destruct Hd as [[d' o] [E Hp]]. simpl in E. subst d'.
      apply nodup_In, day_order_pairs_In in Hp. destruct Hp as [r [Hr [Ed _]]].
      apply resample_D_days. exists d, d.
      assert (In d (dropna (map purchase_day df)))
        by (apply purchase_day_In; exists r; tauto).
      repeat split; try assumption; lia.
Qed.

(** C7, as the code has it: over a filtered relation the daily counts add up
    to the number of distinct (day, order) pairs, which is at least the
    number of distinct orders, and is that number when all the lines of an
    order fall on one day. *)
Theorem total_orders_of_filtered (all : list OrderLine) (start_date end_date : Z) :
  let df := main_df all start_date end_date in
  total_orders (create_daily_orders_df df)
  = series_nunique day_order_dec (day_order_pairs df) /\
  (series_nunique string_dec (map order_id df)
   <= total_orders (create_daily_orders_df df))%nat /\
  ((forall r1 r2, In r1 df -> In r2 df -> order_id r1 = order_id r2 ->
                  purchase_day r1 = purchase_day r2) ->
   total_orders (create_daily_orders_df df)
   = series_nunique string_dec (map order_id df)).
Proof.
  intros df.
  assert (Hvalid : forall r, In r df -> exists d, purchase_day r = Some d).
  { intros r Hr. apply main_df_valid_timestamp in Hr. unfold purchase_day.
    destruct (order_purchase_timestamp r) as [t|]; [|contradiction].
    exists (day_of t). reflexivity. }
  assert (Hmem : forall o, In o (map order_id df) <->
                           In o (map snd (nodup day_order_dec (day_order_pairs df)))).
  { intros o. rewrite !in_map_iff. split.
    - intros [r [Eo Hr]]. destruct (Hvalid r Hr) as [d Ed].
      exists (d, o). split; [reflexivity|].
      apply nodup_In, day_order_pairs_In. exists r. tauto.
    - intros [[d o'] [Eo Hp]]. simpl in Eo. subst o'.
      apply nodup_In, day_order_pairs_In in Hp. destruct Hp as [r [Hr [_ Eo]]].
      exists r. tauto. }
  rewrite total_orders_day_order_pairs. split; [reflexivity|].
  unfold series_nunique. split.
  - rewrite <- (length_map snd (nodup day_order_dec _)).
    apply NoDup_incl_length; [apply NoDup_nodup|].
    intros o Ho. apply nodup_In in Ho. apply Hmem. exact Ho.
  - intros Hfd. rewrite <- (length_map snd (nodup day_order_dec _)).
    apply Permutation_length, NoDup_Permutation.
    + apply Finite.Injective_map_NoDup_in; [|apply NoDup_nodup].
      intros [d1 o1] [d2 o2] H1 H2 E. simpl in E. subst o2.
      apply nodup_In, day_order_pairs_In in H1. destruct H1 as [r1 [Hr1 [Ed1 Eo1]]].
      apply nodup_In, day_order_pairs_In in H2. destruct H2 as [r2 [Hr2 [Ed2 Eo2]]].
      assert (E : purchase_day r1 = purchase_day r2)
        by (apply Hfd; congruence).
      congruence.
    + apply NoDup_nodup.
    + intros o. rewrite nodup_In. symmetry. apply Hmem.
Qed.

Lemma total_orders_of_filtered_witness :
  let all := [line "A" "c1" "SP" (Some "tech"%string) (at_time 17532 0) 10;
              line "A" "c1" "SP" (Some "home"%string) (at_time 17532 0) 20;
              line "B" "c2" "RJ" (Some "home"%string) (at_time 17533 0) 5] in
  total_orders (create_daily_orders_df (main_df all 17532 17533))
  = series_nunique string_dec (map order_id (main_df all 17532 17533)).
Proof.
  intros all.
  destruct (total_orders_of_filtered all 17532 17533) as [_ [_ Hfd]].
  apply Hfd. intros r1 r2 H1 H2.
  vm_compute in H1, H2.
  destruct H1 as [<- | [<- | [<- | []]]];
    destruct H2 as [<- | [<- | [<- | []]]];
    intros E; try reflexivity; vm_compute in E; discriminate.
Defined.

(** C7, as the spec states it, fails: an order with lines on two days of the
    window is counted once on each day, so the daily counts add up to 2
    while the relation holds 1 distinct order. *)
Lemma order_counted_on_two_days :
  let all := [line "A" "c1" "SP" (Some "tech"%string) (at_time 17532 0) 10;
              line "A" "c1" "SP" (Some "home"%string) (at_time 17533 0) 20] in
  let df := main_df all 17532 17534 in
  df = all /\
  total_orders (create_daily_orders_df df) = 2%nat /\
  series_nunique string_dec (map order_id df) = 1%nat.
Proof.
  repeat split; vm_compute; reflexivity.
Qed.

(** * Further properties of the filter and of the frames *)

(** ** The date-range filter, by day *)

Lemma main_df_kept_day (df : list OrderLine) (start_date end_date : Z)
      (r : OrderLine) :
  In r (main_df df start_date end_date) ->
  In r df /\
  exists d, purchase_day r = Some d /\ start_date <= d <= end_date.
Proof.
  unfold purchase_day.
  intros Hin. apply main_df_In in Hin. destruct Hin as [Hin [t [E [Hs He]]]].
  split; [exact Hin|]. exists (day_of t). rewrite E. split; [reflexivity|].
  apply start_bound_by_day in Hs. split; [exact Hs|].
  revert He. unfold to_datetime_date, day_of, ns_per_day.
  Z.to_euclidean_division_equations. lia.
Qed.

(** The rows the filter keeps have a timestamp on a day of the range, and it
    keeps every row of a day from the start date up to the day before the
    end date. *)
Theorem main_df_day_bounds (df : list OrderLine) (start_date end_date : Z)
        (r : OrderLine) :
  (In r (main_df df start_date end_date) ->
   In r df /\
   exists d, purchase_day r = Some d /\ start_date <= d <= end_date) /\
  (In r df ->
   (exists d, purchase_day r = Some d /\ start_date <= d < end_date) ->
   In r (main_df df start_date end_date)).
Proof.
  split; [apply main_df_kept_day|]. unfold purchase_day.
  intros Hin [d [E Hd]]. apply main_df_In. split; [exact Hin|].
  destruct (order_purchase_timestamp r) as [t|]; simpl in E; [|discriminate].
  inversion E; subst d. exists t. split; [reflexivity|]. split.
  - apply start_bound_by_day. lia.
  - destruct Hd as [_ Hd]. revert Hd.
    unfold to_datetime_date, day_of, ns_per_day.
    Z.to_euclidean_division_equations. lia.
Qed.

Lemma main_df_day_bounds_witness :
  let r := line "A" "c1" "SP" (Some "tech"%string) (at_time 17532 10) 10 in
  In r (main_df [r] 17532 17533).
Proof.
  intros r.
  apply (main_df_day_bounds [r] 17532 17533 r).
  - left; reflexivity.
  - exists 17532. split; [vm_compute; reflexivity | lia].
Defined.

Lemma main_df_empty_range (df : list OrderLine) (start_date end_date : Z) :
  end_date < start_date -> main_df df start_date end_date = [].
Proof.
  intros Hinv. unfold main_df.
  induction df as [|r df IH]; simpl; [reflexivity|]. rewrite IH.
  unfold ts_ge, ts_le, to_datetime_date, ns_per_day.
  destruct (order_purchase_timestamp r) as [t|]; simpl; [|reflexivity].
  destruct (Z.leb_spec (start_date * 86400000000000) t);
    destruct (Z.leb_spec t (end_date * 86400000000000)); simpl;
    try reflexivity; lia.
Qed.

(** Filtering a filtered relation is filtering once with the intersection of
    the two ranges; filtering again with the same range changes nothing. *)
Theorem main_df_twice (df : list OrderLine) (s1 e1 s2 e2 : Z) :
  main_df (main_df df s1 e1) s2 e2 = main_df df (Z.max s1 s2) (Z.min e1 e2) /\
  main_df (main_df df s1 e1) s1 e1 = main_df df s1 e1.
Proof.
  assert (Hgen : forall a b c d,
             main_df (main_df df a b) c d = main_df df (Z.max a c) (Z.min b d)).
  { intros a b c d. unfold main_df. induction df as [|r df IH]; [reflexivity|].
    simpl.
    assert (E : ts_ge (order_purchase_timestamp r) (to_datetime_date (Z.max a c))
                && ts_le (order_purchase_timestamp r) (to_datetime_date (Z.min b d))
                = (ts_ge (order_purchase_timestamp r) (to_datetime_date a)
                   && ts_le (order_purchase_timestamp r) (to_datetime_date b))
                  && (ts_ge (order_purchase_timestamp r) (to_datetime_date c)
                      && ts_le (order_purchase_timestamp r) (to_datetime_date d))).
    { unfold ts_ge, ts_le, to_datetime_date, ns_per_day.
      destruct (order_purchase_timestamp r) as [t|]; [|reflexivity].
      destruct (Z.leb_spec (Z.max a c * 86400000000000) t);
        destruct (Z.leb_spec t (Z.min b d * 86400000000000));
        destruct (Z.leb_spec (a * 86400000000000) t);
        destruct (Z.leb_spec t (b * 86400000000000));
        destruct (Z.leb_spec (c * 86400000000000) t);
        destruct (Z.leb_spec t (d * 86400000000000));
        simpl; try reflexivity; lia. }
    rewrite E.
    destruct (ts_ge (order_purchase_timestamp r) (to_datetime_date a)
              && ts_le (order_purchase_timestamp r) (to_datetime_date b)) eqn:E1;
      simpl.
    - destruct (ts_ge (order_purchase_timestamp r) (to_datetime_date c)
                && ts_le (order_purchase_timestamp r) (to_datetime_date d));
        [f_equal|]; exact IH.
    - exact IH. }
  split; [apply Hgen|].
  rewrite Hgen, Z.max_id, Z.min_id. reflexivity.
Qed.

(** ** The daily frame of a filtered relation *)

Lemma day_range_sorted (lo hi : Z) : StronglySorted Z.lt (day_range lo hi).
Proof.
  unfold day_range. generalize (Z.to_nat (hi - lo + 1)) as n.
  generalize 0%nat as i. intros i n. revert i.
  induction n as [|n IH]; intros i; simpl; constructor.
  - apply IH.
  - apply Forall_forall. intros x Hx. apply in_map_iff in Hx.
    destruct Hx as [j [<- Hj]]. apply in_seq in Hj. lia.
Qed.

Lemma day_range_length (lo hi : Z) :
  List.length (day_range lo hi) = Z.to_nat (hi - lo + 1).
Proof. unfold day_range. rewrite length_map. apply length_seq. Qed.

Lemma resample_D_sorted (df : list OrderLine) :
  StronglySorted Z.lt (map fst (resample_D df)).
Proof.
  unfold resample_D. destruct (dropna (map purchase_day df)) as [|d0 ds].
  - constructor.
  - rewrite map_map. simpl map. rewrite map_id. apply day_range_sorted.
Qed.

(** Over a filtered relation the daily frame stays inside the range: its
    dates are midnights from the start date to the end date, in ascending
    order, so it has at most one row per day of the range. *)
Theorem daily_rows_inside_range (all : list OrderLine) (start_date end_date : Z) :
  let daily := create_daily_orders_df (main_df all start_date end_date) in
  StronglySorted Z.lt (map d_order_purchase_timestamp daily) /\
  (forall m, In m daily ->
             exists d, d_order_purchase_timestamp m = to_datetime_date d /\
                       start_date <= d <= end_date) /\
  (Z.of_nat (List.length daily) <= Z.max 0 (end_date - start_date + 1)).
Proof.
  intros daily.
  assert (Hdays : forall d, In d (map fst (resample_D (main_df all start_date end_date))) ->
                            start_date <= d <= end_date).
  { intros d Hd. apply resample_D_days in Hd.
    destruct Hd as [d1 [d2 [H1 [H2 Hd]]]].
    apply purchase_day_In in H1. destruct H1 as [r1 [Hr1 E1]].
    apply purchase_day_In in H2. destruct H2 as [r2 [Hr2 E2]].
    destruct (main_df_kept_day all start_date end_date r1 Hr1)
      as [_ [d1' [E1' Hd1]]].
    destruct (main_df_kept_day all start_date end_date r2 Hr2)
      as [_ [d2' [E2' Hd2]]].
    assert (d1' = d1) by congruence. assert (d2' = d2) by congruence. lia. }
  split; [|split].
  - unfold daily. rewrite create_daily_orders_df_dates.
    generalize (resample_D_sorted (main_df all start_date end_date)).
    generalize (map fst (resample_D (main_df all start_date end_date))).
    intros l Hl. induction Hl as [|a l Hl IH Ha]; simpl; constructor.
    + exact IH.
    + rewrite Forall_forall in *. intros x Hx. apply in_map_iff in Hx.
      destruct Hx as [y [<- Hy]]. specialize (Ha y Hy).
      unfold to_datetime_date, ns_per_day. lia.
  - intros m Hm. unfold daily, create_daily_orders_df in Hm.
    apply in_map_iff in Hm. destruct Hm as [b [<- Hb]].
    exists (fst b). split; [reflexivity|]. apply Hdays, in_map. exact Hb.
  - unfold daily, create_daily_orders_df. rewrite length_map.
    rewrite <- (length_map fst).
    pose proof (resample_D_NoDup (main_df all start_date end_date)) as Hnd.
    assert (Hincl : incl (map fst (resample_D (main_df all start_date end_date)))
                         (day_range start_date end_date)).
    { intros d Hd. apply day_range_In. apply Hdays. exact Hd. }
    pose proof (NoDup_incl_length Hnd Hincl) as Hlen.
    rewrite day_range_length in Hlen. lia.
Qed.

(** ** The rows of the category frame, and its two ends *)

Lemma category_counts_In (df : list OrderLine) (c : string) (n : nat) :
  In (c, n) (category_counts df) <->
  In (Some c) (map product_category_name_english df) /\
  n = List.length (filter (has_key product_category_name_english c) df).
Proof.
  unfold category_counts. rewrite in_map_iff. split.
  - intros [[k g] [E Hg]]. simpl in E. inversion E; subst.
    apply groupby_In in Hg. destruct Hg as [Hk ->].
    split; [apply dropna_In; exact Hk|].
    unfold series_count. apply length_map.
  - intros [Hc ->].
    exists (c, filter (has_key product_category_name_english c) df).
    split.
    + simpl. unfold series_count. rewrite length_map. reflexivity.
    + apply groupby_In. split; [apply dropna_In; exact Hc | reflexivity].
Qed.

(** The category frame has one row per category that occurs, and the count
    of a row is the number of lines of its category, at least 1. *)
Theorem category_rows (df : list OrderLine) :
  NoDup (map fst (create_sum_order_items_df df)) /\
  (forall c n,
      In (c, n) (create_sum_order_items_df df) <->
      In (Some c) (map product_category_name_english df) /\
      n = List.length (filter (has_key product_category_name_english c) df)) /\
  (forall c n, In (c, n) (create_sum_order_items_df df) -> (1 <= n)%nat).
Proof.
  assert (Hrows : forall c n,
      In (c, n) (create_sum_order_items_df df) <->
      In (Some c) (map product_category_name_english df) /\
      n = List.length (filter (has_key product_category_name_english c) df)).
  { intros c n. rewrite <- category_counts_In.
    split; apply Permutation_in;
      [apply Permutation_sym|]; apply create_sum_order_items_df_perm. }
  split; [|split; [exact Hrows|]].
  - apply (Permutation_NoDup
             (Permutation_map fst (create_sum_order_items_df_perm df))).
    rewrite category_counts_keys. apply sort_keys_NoDup.
  - intros c n Hin. apply Hrows in Hin. destruct Hin as [Hc ->].
    apply in_map_iff in Hc. destruct Hc as [r [Ec Hr]].
    assert (Hf : In r (filter (has_key product_category_name_english c) df))
      by (apply filter_In; split; [exact Hr | apply has_key_true; exact Ec]).
    destruct (filter (has_key product_category_name_english c) df);
      [destruct Hf | simpl; lia].
Qed.

Lemma sorted_firstn_skipn {A : Type} (R : A -> A -> Prop) (n : nat) :
  forall l, StronglySorted R l ->
            forall a b, In a (firstn n l) -> In b (skipn n l) -> R a b.
Proof.
  induction n as [|n IH]; intros l Hs a b Ha Hb.
  - destruct Ha.
  - destruct l as [|x l]; [destruct Ha|].
    apply StronglySorted_inv in Hs. destruct Hs as [Hs Hx].
    simpl in Ha, Hb. destruct Ha as [<- | Ha].
    + rewrite Forall_forall in Hx. apply Hx.
      rewrite <- (firstn_skipn n l). apply in_or_app. right. exact Hb.
    + apply (IH l Hs a b Ha Hb).
Qed.

(** The best five categories are the first rows of the frame and the worst
    five its last rows: no category outside the best five has more lines
    than one of them, and none outside the worst five has fewer. *)
Theorem best_and_worst_products (df : list OrderLine) :
  let items := create_sum_order_items_df df in
  (forall a b, In a (best_products items) -> In b (skipn 5 items) ->
               (snd b <= snd a)%nat) /\
  (forall a b, In a (firstn (List.length items - 5) items) ->
               In b (worst_products items) -> (snd b <= snd a)%nat) /\
  List.length (best_products items) = Nat.min 5 (List.length items) /\
  List.length (worst_products items) = Nat.min 5 (List.length items).
Proof.
  intros items.
  pose proof (sort_values_desc_sorted (category_counts df)) as Hs.
  change (StronglySorted count_ge items) in Hs.
  split; [|split; [|split]].
  - intros a b Ha Hb. apply (sorted_firstn_skipn count_ge 5 items Hs a b Ha Hb).
  - intros a b Ha Hb.
    apply (sorted_firstn_skipn count_ge _ items Hs a b Ha Hb).
  - unfold best_products, head. apply length_firstn.
  - unfold worst_products, tail. rewrite length_skipn. lia.
Qed.

(** With at most five categories the best and the worst five are both the
    whole frame, and with fewer than ten they share a row. *)
Theorem best_and_worst_overlap (df : list OrderLine) :
  let items := create_sum_order_items_df df in
  ((List.length items <= 5)%nat ->
   best_products items = items /\ worst_products items = items) /\
  ((0 < List.length items < 10)%nat ->
   exists row, In row (best_products items) /\ In row (worst_products items)).
Proof.
  intros items. unfold best_products, worst_products, head, tail. split.
  - intros Hlen. split; [apply firstn_all2; exact Hlen|].
    replace (List.length items - 5)%nat with 0%nat by lia. reflexivity.
  - intros [Hpos Hlt].
    set (i := Nat.min 4 (List.length items - 1)).
    destruct (nth_error items i) as [row|] eqn:Ei.
    + exists row. split.
      * apply (nth_error_In _ i). rewrite nth_error_firstn.
        assert (Hi : Nat.ltb i 5 = true) by (apply Nat.ltb_lt; unfold i; lia).
        rewrite Hi. exact Ei.
      * apply (nth_error_In _ (i - (List.length items - 5))).
        rewrite nth_error_skipn.
        replace (List.length items - 5 + (i - (List.length items - 5)))%nat
          with i by (unfold i; lia).
        exact Ei.
    + exfalso. apply nth_error_None in Ei. unfold i in Ei. lia.
Qed.

Lemma best_and_worst_overlap_witness :
  let df := [line "A" "c1" "SP" (Some "tech"%string) (at_time 17532 10) 10;
             line "B" "c2" "RJ" (Some "home"%string) (at_time 17532 11) 20] in
  best_products (create_sum_order_items_df df) = create_sum_order_items_df df.
Proof.
  intros df.
  destruct (best_and_worst_overlap df) as [Hsmall _].
  apply Hsmall. vm_compute. lia.
Defined.

(** ** Distinct values counted per group *)

Section PairCount.
Context {K : Type} `{KeyOrdLaws K} {A V : Type}.
Variable vdec : forall a b : V, {a = b} + {a <> b}.
Variable key : A -> option K.
Variable val : A -> V.

Lemma key_val_pairs_In (df : list A) (k : K) (v : V) :
  In (k, v) (key_val_pairs key val df) <->
  exists r, In r df /\ key r = Some k /\ val r = v.
Proof.
  unfold key_val_pairs. rewrite dropna_In, in_map_iff. split.
  - intros [r [E Hr]]. exists r. split; [exact Hr|].
    destruct (key r) as [k'|]; simpl in E; [|discriminate].
    inversion E; subst. split; reflexivity.
  - intros [r [Hr [Ek Ev]]]. exists r. split; [|exact Hr].
    rewrite Ek, Ev. reflexivity.
Qed.

(** The distinct values of a group are the distinct pairs with its key. *)
Lemma nunique_of_group (df : list A) (k : K) :
  series_nunique vdec (map val (filter (has_key key k) df))
  = List.length (filter (has_key (fun p : K * V => Some (fst p)) k)
                        (nodup (pair_dec vdec) (key_val_pairs key val df))).
Proof.
  unfold series_nunique.
  set (P := nodup (pair_dec vdec) (key_val_pairs key val df)).
  rewrite <- (length_map snd (filter _ P)).
  apply Permutation_length, NoDup_Permutation.
  - apply NoDup_nodup.
  - apply Finite.Injective_map_NoDup_in.
    + intros [k1 v1] [k2 v2] H1 H2 E. simpl in E. subst v2.
      apply filter_In in H1. destruct H1 as [_ H1].
      apply filter_In in H2. destruct H2 as [_ H2].
      apply has_key_true in H1. apply has_key_true in H2. simpl in *.
      congruence.
    + apply NoDup_filter, NoDup_nodup.
  - intros v. rewrite nodup_In, !in_map_iff. split.
    + intros [r [Ev Hr]]. apply filter_In in Hr. destruct Hr as [Hr Hk].
      apply has_key_true in Hk. exists (k, v). split; [reflexivity|].
      apply filter_In. split; [|apply has_key_true; reflexivity].
      unfold P. apply nodup_In. apply key_val_pairs_In. exists r. tauto.
    + intros [[k' v'] [Ev Hp]]. simpl in Ev. subst v'.
      apply filter_In in Hp. destruct Hp as [Hp Hk].
      apply has_key_true in Hk. simpl in Hk. inversion Hk; subst k'.
      unfold P in Hp. apply nodup_In in Hp. apply key_val_pairs_In in Hp.
      destruct Hp as [r [Hr [Ek Ev]]]. exists r. split; [exact Ev|].
      apply filter_In. split; [exact Hr | apply has_key_true; exact Ek].
Qed.

(** Over all groups they add up to the number of distinct pairs. *)
Lemma groupby_nunique_sum (df : list A) :
  nat_sum (map (fun g => series_nunique vdec (map val (snd g))) (groupby key df))
  = series_nunique (pair_dec vdec) (key_val_pairs key val df).
Proof.
  unfold groupby. rewrite map_map. simpl.
  rewrite (map_ext _ (fun k => List.length
                                 (filter (has_key (fun p : K * V => Some (fst p)) k)
                                         (nodup (pair_dec vdec)
                                                (key_val_pairs key val df)))))
    by (intros k; apply nunique_of_group).
  rewrite (group_sizes (fun p : K * V => Some (fst p))).
  - rewrite dropna_map_Some, length_map. reflexivity.
  - apply sort_keys_NoDup.
  - intros k Hk. rewrite dropna_map_Some in Hk. apply in_map_iff in Hk.
    destruct Hk as [[k' v] [E Hp]]. simpl in E. subst k'.
    apply nodup_In, key_val_pairs_In in Hp. destruct Hp as [r [Hr [Ek _]]].
    apply sort_keys_In, dropna_In. rewrite <- Ek. apply in_map. exact Hr.
Qed.

Lemma pair_values (df : list A) :
  (forall r, In r df -> key r <> None) ->
  forall v, In v (map val df) <->
            In v (map snd (nodup (pair_dec vdec) (key_val_pairs key val df))).
Proof.
  intros Hkey v. rewrite !in_map_iff. split.
  - intros [r [Ev Hr]]. destruct (key r) as [k|] eqn:Ek;
      [|exfalso; apply (Hkey r Hr); exact Ek].
    exists (k, v). split; [reflexivity|].
    apply nodup_In, key_val_pairs_In. exists r. tauto.
  - intros [[k v'] [Ev Hp]]. simpl in Ev. subst v'.
    apply nodup_In, key_val_pairs_In in Hp. destruct Hp as [r [Hr [_ Ev]]].
    exists r. tauto.
Qed.

(** There are at least as many distinct pairs as distinct values, and as
    many when a value goes with one key only. *)
Lemma nunique_le_pairs (df : list A) :
  (forall r, In r df -> key r <> None) ->
  (series_nunique vdec (map val df)
   <= series_nunique (pair_dec vdec) (key_val_pairs key val df))%nat.
Proof.
  intros Hkey. unfold series_nunique.
  rewrite <- (length_map snd (nodup (pair_dec vdec) _)).
  apply NoDup_incl_length; [apply NoDup_nodup|].
  intros v Hv. apply nodup_In in Hv. apply (pair_values df Hkey). exact Hv.
Qed.

Lemma nunique_eq_pairs (df : list A) :
  (forall r, In r df -> key r <> None) ->
  (forall r1 r2, In r1 df -> In r2 df -> val r1 = val r2 -> key r1 = key r2) ->
  series_nunique (pair_dec vdec) (key_val_pairs key val df)
  = series_nunique vdec (map val df).
Proof.
  intros Hkey Hfd. unfold series_nunique.
  rewrite <- (length_map snd (nodup (pair_dec vdec) _)).
  apply Permutation_length, NoDup_Permutation.
  - apply Finite.Injective_map_NoDup_in; [|apply NoDup_nodup].
    intros [k1 v1] [k2 v2] H1 H2 E. simpl in E. subst v2.
    apply nodup_In, key_val_pairs_In in H1. destruct H1 as [r1 [Hr1 [Ek1 Ev1]]].
    apply nodup_In, key_val_pairs_In in H2. destruct H2 as [r2 [Hr2 [Ek2 Ev2]]].
    assert (E : key r1 = key r2) by (apply Hfd; congruence).
    congruence.
  - apply NoDup_nodup.
  - intros v. rewrite nodup_In. symmetry. apply (pair_values df Hkey).
Qed.
End PairCount.

(** ** The rows and the total of the state frame *)

Lemma create_bystate_df_In (df : list OrderLine) (s : string) (n : nat) :
  In (s, n) (create_bystate_df df) <->
  In s (map customer_state df) /\
  n = series_nunique string_dec
                     (map customer_id (filter (has_key state_key s) df)).
Proof.
  unfold create_bystate_df, reset_index. rewrite in_map_iff. split.
  - intros [[k g] [E Hg]]. simpl in E. inversion E; subst.
    apply groupby_In in Hg. destruct Hg as [Hk ->].
    rewrite dropna_map_Some in Hk. split; [exact Hk | reflexivity].
  - intros [Hs ->]. exists (s, filter (has_key state_key s) df).
    split; [reflexivity|]. apply groupby_In. split; [|reflexivity].
    rewrite dropna_map_Some. exact Hs.
Qed.

(** The state frame has one row per state that occurs; the count of a row is
    the number of distinct customers with a line from that state, at
    least 1. *)
Theorem bystate_rows (df : list OrderLine) :
  NoDup (map fst (create_bystate_df df)) /\
  (forall s n,
      In (s, n) (create_bystate_df df) <->
      In s (map customer_state df) /\
      n = series_nunique string_dec
                         (map customer_id (filter (has_key state_key s) df))) /\
  (forall s n, In (s, n) (create_bystate_df df) -> (1 <= n)%nat).
Proof.
  split; [|split; [apply create_bystate_df_In|]].
  - rewrite create_bystate_df_states. apply sort_keys_NoDup.
  - intros s n Hin. apply create_bystate_df_In in Hin. destruct Hin as [Hs ->].
    apply in_map_iff in Hs. destruct Hs as [r [Es Hr]].
    assert (Hc : In (customer_id r)
                    (nodup string_dec
                           (map customer_id (filter (has_key state_key s) df)))).
    { apply nodup_In, in_map, filter_In. split; [exact Hr|].
      apply has_key_true. unfold state_key. rewrite Es. reflexivity. }
    unfold series_nunique.
    destruct (nodup string_dec
                    (map customer_id (filter (has_key state_key s) df)));
      [destruct Hc | simpl; lia].
Qed.

Lemma bystate_rows_witness :
  let df := [line "A" "c1" "SP" (Some "tech"%string) (at_time 17532 10) 10;
             line "B" "c1" "SP" None None 20] in
  In ("SP"%string, 1%nat) (create_bystate_df df).
Proof.
  intros df.
  destruct (bystate_rows df) as [_ [Hrows _]].
  apply Hrows. split; [left; reflexivity | vm_compute; reflexivity].
Defined.

(** The customer counts of the states add up to the number of distinct
    (state, customer) pairs: at least the number of distinct customers, and
    that number when no customer has lines from two states. *)
Theorem bystate_total (df : list OrderLine) :
  nat_sum (map snd (create_bystate_df df))
  = series_nunique (pair_dec string_dec)
                   (key_val_pairs state_key customer_id df) /\
  (series_nunique string_dec (map customer_id df)
   <= nat_sum (map snd (create_bystate_df df)))%nat /\
  ((forall r1 r2, In r1 df -> In r2 df -> customer_id r1 = customer_id r2 ->
                  customer_state r1 = customer_state r2) ->
   nat_sum (map snd (create_bystate_df df))
   = series_nunique string_dec (map customer_id df)).
Proof.
  assert (Hsum : nat_sum (map snd (create_bystate_df df))
                 = series_nunique (pair_dec string_dec)
                                  (key_val_pairs state_key customer_id df)).
  { unfold create_bystate_df, reset_index. rewrite map_map. simpl.
    apply (groupby_nunique_sum string_dec state_key customer_id df). }
  assert (Hkey : forall r, In r df -> state_key r <> None)
    by (intros r _; discriminate).
  split; [exact Hsum|]. rewrite Hsum. split.
  - apply nunique_le_pairs. exact Hkey.
  - intros Hfd. apply nunique_eq_pairs; [exact Hkey|].
    intros r1 r2 H1 H2 E. unfold state_key. f_equal. apply Hfd; assumption.
Qed.

Lemma bystate_total_witness :
  let df := [line "A" "c1" "SP" (Some "tech"%string) (at_time 17532 10) 10;
             line "B" "c1" "SP" None None 20;
             line "C" "c2" "RJ" None None 5] in
  nat_sum (map snd (create_bystate_df df))
  = series_nunique string_dec (map customer_id df).
Proof.
  intros df.
  destruct (bystate_total df) as [_ [_ Hfd]].
  apply Hfd. intros r1 r2 H1 H2.
  destruct H1 as [<- | [<- | [<- | []]]];
    destruct H2 as [<- | [<- | [<- | []]]];
    intros E; try reflexivity; vm_compute in E; discriminate.
Defined.

(** Line 135: sorting the state frame on the count gives the same rows,
    largest count first. *)
Theorem bystate_by_count_sorted (df : list OrderLine) :
  Permutation (create_bystate_df df) (bystate_by_count (create_bystate_df df)) /\
  StronglySorted count_ge (bystate_by_count (create_bystate_df df)) /\
  nat_sum (map snd (bystate_by_count (create_bystate_df df)))
  = nat_sum (map snd (create_bystate_df df)).
Proof.
  unfold bystate_by_count. split; [apply sort_values_desc_perm|].
  split; [apply sort_values_desc_sorted|].
  apply nat_sum_perm, Permutation_map, Permutation_sym, sort_values_desc_perm.
Qed.

(** ** The rows and the totals of the RFM frame *)

Lemma series_max_spec (col : list Timestamp) (t : Z) :
  series_max col = Some t ->
  In (Some t) col /\ forall t', In (Some t') col -> t' <= t.
Proof.
  unfold series_max. destruct (dropna col) as [|t0 ts] eqn:E; [discriminate|].
  intros Ht. inversion Ht; subst t. clear Ht. split.
  - apply dropna_In. rewrite E. apply fold_max_In.
  - intros t' Ht'. apply dropna_In in Ht'. rewrite E in Ht'.
    destruct (fold_max_ge t0 ts) as [H0 Hts].
    destruct Ht' as [<- | Ht']; [exact H0 | apply Hts; exact Ht'].
Qed.

Lemma series_max_None (col : list Timestamp) :
  series_max col = None <-> forall t, ~ In (Some t) col.
Proof.
  unfold series_max. split.
  - intros Hn t Ht. apply dropna_In in Ht.
    destruct (dropna col); [destruct Ht | discriminate].
  - intros Hno. destruct (dropna col) as [|t0 ts] eqn:E; [reflexivity|].
    exfalso. apply (Hno t0). apply dropna_In. rewrite E. left. reflexivity.
Qed.

Lemma series_nunique_pos {A : Type} (dec : forall a b : A, {a = b} + {a <> b})
      (col : list A) (x : A) :
  In x col -> (1 <= series_nunique dec col)%nat.
Proof.
  intros Hx. unfold series_nunique.
  assert (Hn : In x (nodup dec col)) by (apply nodup_In; exact Hx).
  destruct (nodup dec col); [destruct Hn | simpl; lia].
Qed.

Lemma series_nunique_le_length {A : Type}
      (dec : forall a b : A, {a = b} + {a <> b}) (col : list A) :
  (series_nunique dec col <= List.length col)%nat.
Proof.
  unfold series_nunique. apply NoDup_incl_length; [apply NoDup_nodup|].
  intros o Ho. apply nodup_In in Ho. exact Ho.
Qed.

Lemma sort_keys_length (col : list string) :
  List.length (sort_keys col) = series_nunique string_dec col.
Proof.
  unfold series_nunique. apply Permutation_length, NoDup_Permutation.
  - apply sort_keys_NoDup.
  - apply NoDup_nodup.
  - intros x. rewrite sort_keys_In, nodup_In. reflexivity.
Qed.

(** The RFM frame has one row per customer, in ascending order of the
    customer id.  The frequency of a row is the number of distinct orders of
    the customer, between 1 and the number of the customer's lines, and its
    monetary value is the summed price of those lines. *)
Theorem rfm_rows (df : list OrderLine) (orders : list Order) :
  let rfm := fst (create_rfm_df df orders) in
  StronglySorted (fun a b => String.ltb a b = true) (map rfm_customer_id rfm) /\
  List.length rfm = series_nunique string_dec (map customer_id df) /\
  (forall r, In r rfm ->
             let g := filter (has_key customer_key (rfm_customer_id r)) df in
             In (rfm_customer_id r) (map customer_id df) /\
             frequency r = series_nunique string_dec (map order_id g) /\
             (1 <= frequency r <= List.length g)%nat /\
             monetary r = series_sum (map price g)).
Proof.
  intros rfm. split; [|split].
  - unfold rfm. rewrite create_rfm_df_customers.
    pose proof (sort_keys_sorted (map customer_id df)) as Hs.
    unfold key_lt in Hs. exact Hs.
  - rewrite <- (length_map rfm_customer_id). unfold rfm.
    rewrite create_rfm_df_customers. apply sort_keys_length.
  - intros r Hr. apply create_rfm_df_rows in Hr. destruct Hr as [k [Hk Hr]].
    cbv zeta in Hr. subst r. cbv zeta. simpl.
    split; [exact Hk|]. split; [reflexivity|]. split; [|reflexivity].
    apply in_map_iff in Hk. destruct Hk as [x [Ex Hx]].
    set (g := filter (has_key customer_key k) df).
    assert (Hg : In x g).
    { apply filter_In. split; [exact Hx|]. apply has_key_true.
      unfold customer_key. rewrite Ex. reflexivity. }
    split.
    + apply series_nunique_pos with (x := order_id x). apply in_map. exact Hg.
    + rewrite <- (length_map order_id). apply series_nunique_le_length.
Qed.

Lemma rfm_rows_witness :
  let df := [line "A" "c1" "SP" (Some "tech"%string) (at_time 17532 10) 10;
             line "A" "c1" "SP" (Some "home"%string) (at_time 17532 10) 20] in
  frequency (mkRfmRow "c1" (at_time 17532 10) 1 30 None) = 1%nat.
Proof.
  intros df.
  destruct (rfm_rows df []) as [_ [_ Hrow]].
  destruct (Hrow (mkRfmRow "c1" (at_time 17532 10) 1 30 None)) as [_ [Hf _]].
  - vm_compute. left; reflexivity.
  - rewrite Hf. vm_compute. reflexivity.
Defined.

(** The frequencies add up to the number of distinct (customer, order)
    pairs: at least the number of distinct orders, and that number when every
    order belongs to one customer. *)
Theorem rfm_totals (df : list OrderLine) (orders : list Order) :
  let rfm := fst (create_rfm_df df orders) in
  nat_sum (map frequency rfm)
  = series_nunique (pair_dec string_dec)
                   (key_val_pairs customer_key order_id df) /\
  (series_nunique string_dec (map order_id df) <= nat_sum (map frequency rfm))%nat /\
  ((forall r1 r2, In r1 df -> In r2 df -> order_id r1 = order_id r2 ->
                  customer_id r1 = customer_id r2) ->
   nat_sum (map frequency rfm) = series_nunique string_dec (map order_id df)).
Proof.
  intros rfm.
  assert (Hkey : forall r, In r df -> customer_key r <> None)
    by (intros r _; discriminate).
  assert (Hfreq : nat_sum (map frequency rfm)
                  = series_nunique (pair_dec string_dec)
                                   (key_val_pairs customer_key order_id df)).
  { unfold rfm, create_rfm_df. cbv zeta. unfold fst at 1. rewrite !map_map. simpl.
    apply (groupby_nunique_sum string_dec customer_key order_id df). }
  split; [exact Hfreq | rewrite Hfreq; split].
  - apply nunique_le_pairs. exact Hkey.
  - intros Hfd. apply nunique_eq_pairs; [exact Hkey|].
    intros r1 r2 H1 H2 E. unfold customer_key. f_equal. apply Hfd; assumption.
Qed.

Lemma rfm_totals_witness :
  let df := [line "A" "c1" "SP" (Some "tech"%string) (at_time 17532 10) 10;
             line "A" "c1" "SP" (Some "home"%string) (at_time 17532 10) 20;
             line "B" "c2" "RJ" None None 5] in
  nat_sum (map frequency (fst (create_rfm_df df [])))
  = series_nunique string_dec (map order_id df).
Proof.
  intros df.
  destruct (rfm_totals df []) as [_ [_ Hfd]].
  apply Hfd. intros r1 r2 H1 H2.
  destruct H1 as [<- | [<- | [<- | []]]];
    destruct H2 as [<- | [<- | [<- | []]]];
    intros E; try reflexivity; vm_compute in E; discriminate.
Defined.

(** When no line of the relation is later than the latest purchase of the
    orders table, no recency is negative. *)
Theorem recency_not_negative (df : list OrderLine) (orders : list Order) (g : Z) :
  series_max (map o_order_purchase_timestamp orders) = Some g ->
  (forall x t, In x df -> order_purchase_timestamp x = Some t -> t <= g) ->
  forall r q, In r (fst (create_rfm_df df orders)) -> recency r = Some q ->
              0 <= q.
Proof.
  intros Hg Hle r q Hr Hq.
  apply create_rfm_df_rows in Hr. destruct Hr as [k [_ Hr]].
  cbv zeta in Hr. subst r. simpl in Hq. rewrite Hg in Hq.
  destruct (series_max
              (map order_purchase_timestamp
                   (filter (has_key (fun x => Some (customer_id x)) k) df)))
    as [t|] eqn:Et; simpl in Hq; [|discriminate].
  inversion Hq; subst q. apply series_max_spec in Et. destruct Et as [Hin _].
  apply in_map_iff in Hin. destruct Hin as [x [Ex Hx]].
  apply filter_In in Hx. destruct Hx as [Hx _].
  specialize (Hle x t Hx Ex).
  apply Z.div_pos; [lia | unfold ns_per_day; lia].
Qed.

Lemma recency_not_negative_witness :
  let df := [line "A" "c1" "SP" (Some "tech"%string) (at_time 17532 10) 10] in
  let orders := [mkOrder "A" (at_time 17535 1) None None None] in
  let r := mkRfmRow "c1" (at_time 17532 10) 1 10 (Some 2) in
  In r (fst (create_rfm_df df orders)) /\ recency r = Some 2 /\ 0 <= 2.
Proof.
  intros df orders r.
  assert (Hin : In r (fst (create_rfm_df df orders)))
    by (vm_compute; left; reflexivity).
  split; [exact Hin|]. split; [reflexivity|].
  apply (recency_not_negative df orders (17535 * ns_per_day + 1 * hour)
                              eq_refl) with (r := r);
    [|exact Hin | reflexivity].
  intros x t [<- | []] E. vm_compute in E. inversion E; subst t.
  vm_compute. discriminate.
Defined.

(** ** The frames of one run, taken together *)

Lemma dashboard_views (g : Globals) (start_date end_date : Z) :
  fst (dashboard g start_date end_date)
  = let main := main_df (all_df g) start_date end_date in
    {| daily_orders_df := create_daily_orders_df main;
       sum_order_items_df := create_sum_order_items_df main;
       bystate_df := create_bystate_df main;
       rfm_df := fst (create_rfm_df main (orders_df g)) |}.
Proof.
  unfold dashboard.
  destruct (create_rfm_df (main_df (all_df g) start_date end_date) (orders_df g)).
  reflexivity.
Qed.

(** For every date range the frames of a run agree on their counts: the
    category counts add up to at most the number of filtered lines, and the
    RFM frame has as many rows as there are distinct customers, which is at
    most the sum of the customer counts of the states. *)
Theorem dashboard_totals_agree (g : Globals) (start_date end_date : Z) :
  let main := main_df (all_df g) start_date end_date in
  let v := fst (dashboard g start_date end_date) in
  (nat_sum (map snd (sum_order_items_df v)) <= List.length main)%nat /\
  List.length (rfm_df v) = series_nunique string_dec (map customer_id main) /\
  (List.length (rfm_df v) <= nat_sum (map snd (bystate_df v)))%nat.
Proof.
  intros main v. unfold v. rewrite dashboard_views. cbv zeta.
  cbn [daily_orders_df sum_order_items_df bystate_df rfm_df]. fold main.
  assert (Hlen : List.length (fst (create_rfm_df main (orders_df g)))
                 = series_nunique string_dec (map customer_id main)).
  { rewrite <- (length_map rfm_customer_id).
    rewrite create_rfm_df_customers. apply sort_keys_length. }
  split; [|split; [exact Hlen|]].
  - rewrite <- (nat_sum_perm _ _ (Permutation_map snd
                                    (create_sum_order_items_df_perm main))).
    rewrite category_counts_sum.
    rewrite <- (length_map product_category_name_english main).
    apply dropna_length.
  - rewrite Hlen.
    assert (Hsum : nat_sum (map snd (create_bystate_df main))
                   = series_nunique (pair_dec string_dec)
                                    (key_val_pairs state_key customer_id main)).
    { unfold create_bystate_df, reset_index. rewrite map_map. simpl.
      apply (groupby_nunique_sum string_dec state_key customer_id main). }
    rewrite Hsum. apply nunique_le_pairs. intros r _. discriminate.
Qed.

(** A range whose end date is before its start date selects no row and
    gives four empty frames. *)
Theorem dashboard_inverted_range (g : Globals) (start_date end_date : Z) :
  end_date < start_date ->
  main_df (all_df g) start_date end_date = [] /\
  fst (dashboard g start_date end_date)
  = {| daily_orders_df := []; sum_order_items_df := [];
       bystate_df := []; rfm_df := [] |}.
Proof.
  intros Hinv. rewrite dashboard_views. cbv zeta.
  rewrite (main_df_empty_range (all_df g) start_date end_date Hinv).
  split; reflexivity.
Qed.

Lemma dashboard_inverted_range_witness :
  fst (dashboard (mkGlobals
                    [line "A" "c1" "SP" (Some "tech"%string) (at_time 17532 10) 10]
                    []) 17533 17532)
  = {| daily_orders_df := []; sum_order_items_df := [];
       bystate_df := []; rfm_df := [] |}.
Proof.
  apply (dashboard_inverted_range
           (mkGlobals
              [line "A" "c1" "SP" (Some "tech"%string) (at_time 17532 10) 10] [])
           17533 17532).
  lia.
Defined.

(** ** Reordering the rows *)

Lemma filter_perm {A : Type} (p : A -> bool) (l l' : list A) :
  Permutation l l' -> Permutation (filter p l) (filter p l').
Proof.
  induction 1 as [| x l l' _ IH | x y l | l l' l'' _ IH1 _ IH2]; simpl.
  - constructor.
  - destruct (p x); [apply perm_skip|]; exact IH.
  - destruct (p x), (p y); try apply Permutation_refl. apply perm_swap.
  - eapply perm_trans; eassumption.
Qed.

Lemma series_nunique_perm {A : Type} (dec : forall a b : A, {a = b} + {a <> b})
      (l l' : list A) :
  Permutation l l' -> series_nunique dec l = series_nunique dec l'.
Proof.
  intros Hp. unfold series_nunique.
  apply Permutation_length, NoDup_Permutation; try apply NoDup_nodup.
  intros x. rewrite !nodup_In.
  split; apply Permutation_in; [exact Hp | apply Permutation_sym; exact Hp].
Qed.

Lemma dropna_perm {A : Type} (l l' : list (option A)) :
  Permutation l l' -> Permutation (dropna l) (dropna l').
Proof.
  induction 1 as [| x l l' _ IH | x y l | l l' l'' _ IH1 _ IH2].
  - constructor.
  - change (Permutation (dropna ([x] ++ l)) (dropna ([x] ++ l'))).
    rewrite !dropna_app. apply Permutation_app_head. exact IH.
  - change (Permutation (dropna ([y] ++ [x] ++ l)) (dropna ([x] ++ [y] ++ l))).
    rewrite !dropna_app, !app_assoc. apply Permutation_app_tail.
    apply Permutation_app_comm.
  - eapply perm_trans; eassumption.
Qed.

Lemma fold_max_perm (d d' : Z) (ds ds' : list Z) :
  Permutation (d :: ds) (d' :: ds') ->
  fold_right Z.max d ds = fold_right Z.max d' ds'.
Proof.
  intros Hp.
  pose proof (Permutation_in _ Hp (fold_max_In d ds)) as H1.
  pose proof (Permutation_in _ (Permutation_sym Hp) (fold_max_In d' ds')) as H2.
  destruct (fold_max_ge d ds) as [A0 A]. destruct (fold_max_ge d' ds') as [B0 B].
  assert (fold_right Z.max d ds <= fold_right Z.max d' ds')
    by (destruct H1 as [<- | H1]; [exact B0 | apply B; exact H1]).
  assert (fold_right Z.max d' ds' <= fold_right Z.max d ds)
    by (destruct H2 as [<- | H2]; [exact A0 | apply A; exact H2]).
  lia.
Qed.

Lemma fold_min_perm (d d' : Z) (ds ds' : list Z) :
  Permutation (d :: ds) (d' :: ds') ->
  fold_right Z.min d ds = fold_right Z.min d' ds'.
Proof.
  intros Hp.
  pose proof (Permutation_in _ Hp (fold_min_In d ds)) as H1.
  pose proof (Permutation_in _ (Permutation_sym Hp) (fold_min_In d' ds')) as H2.
  destruct (fold_min_le d ds) as [A0 A]. destruct (fold_min_le d' ds') as [B0 B].
  assert (fold_right Z.min d' ds' <= fold_right Z.min d ds)
    by (destruct H1 as [<- | H1]; [exact B0 | apply B; exact H1]).
  assert (fold_right Z.min d ds <= fold_right Z.min d' ds')
    by (destruct H2 as [<- | H2]; [exact A0 | apply A; exact H2]).
  lia.
Qed.

Lemma series_max_perm (col col' : list Timestamp) :
  Permutation col col' -> series_max col = series_max col'.
Proof.
  intros Hp. apply dropna_perm in Hp. unfold series_max.
  destruct (dropna col) as [|d ds], (dropna col') as [|d' ds'].
  - reflexivity.
  - apply Permutation_nil in Hp. discriminate.
  - apply Permutation_sym, Permutation_nil in Hp. discriminate.
  - f_equal. apply fold_max_perm. exact Hp.
Qed.

Lemma groupby_map_perm {K A B : Type} `{KeyOrdLaws K} (key : A -> option K)
      (f : K * list A -> B) (df df' : list A) :
  (forall k l l', Permutation l l' -> f (k, l) = f (k, l')) ->
  Permutation df df' ->
  map f (groupby key df) = map f (groupby key df').
Proof.
  intros Hf Hp. unfold groupby. rewrite !map_map.
  assert (E : sort_keys (dropna (map key df)) = sort_keys (dropna (map key df'))).
  { apply sort_keys_same_members. intros c. rewrite !dropna_In.
    split; apply Permutation_in, Permutation_map;
      [exact Hp | apply Permutation_sym; exact Hp]. }
  rewrite E. apply map_ext. intros k. apply Hf, filter_perm. exact Hp.
Qed.

Lemma resample_D_map_perm {B : Type} (f : Z * list OrderLine -> B)
      (df df' : list OrderLine) :
  (forall d l l', Permutation l l' -> f (d, l) = f (d, l')) ->
  Permutation df df' ->
  map f (resample_D df) = map f (resample_D df').
Proof.
  intros Hf Hp. unfold resample_D.
  pose proof (dropna_perm _ _ (Permutation_map purchase_day Hp)) as Hd.
  destruct (dropna (map purchase_day df)) as [|d ds],
           (dropna (map purchase_day df')) as [|d' ds'].
  - reflexivity.
  - apply Permutation_nil in Hd. discriminate.
  - apply Permutation_sym, Permutation_nil in Hd. discriminate.
  - rewrite (fold_min_perm d d' ds ds' Hd), (fold_max_perm d d' ds ds' Hd).
    rewrite !map_map. apply map_ext. intros b.
    apply Hf, filter_perm. exact Hp.
Qed.

Lemma daily_counts_perm (df df' : list OrderLine) :
  Permutation df df' ->
  daily_counts (create_daily_orders_df df)
  = daily_counts (create_daily_orders_df df').
Proof.
  intros Hp. unfold daily_counts, create_daily_orders_df. rewrite !map_map.
  apply resample_D_map_perm; [|exact Hp].
  intros d l l' Hl. simpl. f_equal.
  apply series_nunique_perm, Permutation_map. exact Hl.
Qed.

Lemma create_bystate_df_perm (df df' : list OrderLine) :
  Permutation df df' -> create_bystate_df df = create_bystate_df df'.
Proof.
  intros Hp. unfold create_bystate_df, reset_index.
  apply groupby_map_perm; [|exact Hp].
  intros k l l' Hl. simpl. f_equal.
  apply series_nunique_perm, Permutation_map. exact Hl.
Qed.

Lemma rfm_counts_perm (df df' : list OrderLine) (orders : list Order) :
  Permutation df df' ->
  rfm_counts (fst (create_rfm_df df orders))
  = rfm_counts (fst (create_rfm_df df' orders)).
Proof.
  intros Hp. unfold rfm_counts, create_rfm_df. cbv zeta. unfold fst at 1 3.
  rewrite !map_map.
  apply groupby_map_perm; [|exact Hp].
  intros k l l' Hl. simpl.
  rewrite (series_max_perm _ _ (Permutation_map order_purchase_timestamp Hl)).
  rewrite (series_nunique_perm string_dec _ _ (Permutation_map order_id Hl)).
  reflexivity.
Qed.

Lemma dashboard_counts_perm (all all' : list OrderLine) (orders : list Order)
      (start_date end_date : Z) :
  Permutation all all' ->
  frame_counts (fst (dashboard (mkGlobals all orders) start_date end_date))
  = frame_counts (fst (dashboard (mkGlobals all' orders) start_date end_date)).
Proof.
  intros Hp. rewrite !dashboard_views. cbv zeta. simpl all_df. simpl orders_df.
  unfold frame_counts.
  cbn [daily_orders_df sum_order_items_df bystate_df rfm_df].
  assert (Hm : Permutation (main_df all start_date end_date)
                           (main_df all' start_date end_date))
    by (apply filter_perm; exact Hp).
  rewrite (daily_counts_perm _ _ Hm).
  rewrite (create_bystate_df_perm _ _ Hm).
  rewrite (rfm_counts_perm _ _ orders Hm).
  f_equal. f_equal. f_equal. unfold create_sum_order_items_df, reset_index.
  change (sort_values_desc (category_counts (main_df all start_date end_date))
          = sort_values_desc (category_counts (main_df all' start_date end_date))).
  rewrite (category_counts_perm _ _ Hm). reflexivity.
Qed.

(** ** The sorted relation and the bounds of the date picker *)

Section SortRowsFacts.
Context {A : Type} (key : A -> Z).

Lemma insert_row_perm (x : A) (l : list A) :
  Permutation (x :: l) (insert_row key x l).
Proof.
  induction l as [|y ys IH]; simpl.
  - apply Permutation_refl.
  - destruct (key x <=? key y).
    + apply Permutation_refl.
    + eapply perm_trans; [apply perm_swap|]. apply perm_skip. exact IH.
Qed.

Lemma argsort_rows_perm (l : list A) : Permutation l (argsort_rows key l).
Proof.
  induction l as [|x l IH]; simpl.
  - constructor.
  - eapply perm_trans; [apply perm_skip; exact IH | apply insert_row_perm].
Qed.

Lemma insert_row_sorted (x : A) (l : list A) :
  StronglySorted (fun a b => key a <= key b) l ->
  StronglySorted (fun a b => key a <= key b) (insert_row key x l).
Proof.
  induction l as [|y ys IH]; simpl; intros Hs.
  - constructor; constructor.
  - apply StronglySorted_inv in Hs. destruct Hs as [Hys Hall].
    destruct (Z.leb_spec (key x) (key y)) as [E | E].
    + constructor; [constructor; assumption|].
      constructor; [exact E|].
      rewrite Forall_forall in *. intros z Hz. specialize (Hall z Hz). lia.
    + constructor; [apply IH; exact Hys|].
      rewrite Forall_forall in *. intros z Hz.
      apply (Permutation_in _ (Permutation_sym (insert_row_perm x ys))) in Hz.
      destruct Hz as [<- | Hz]; [lia | apply Hall; exact Hz].
Qed.

Lemma argsort_rows_sorted (l : list A) :
  StronglySorted (fun a b => key a <= key b) (argsort_rows key l).
Proof.
  induction l as [|x l IH]; simpl.
  - constructor.
  - apply insert_row_sorted. exact IH.
Qed.
End SortRowsFacts.

Lemma sorted_app {A : Type} (R : A -> A -> Prop) (l1 l2 : list A) :
  StronglySorted R l1 -> StronglySorted R l2 ->
  (forall a b, In a l1 -> In b l2 -> R a b) ->
  StronglySorted R (l1 ++ l2).
Proof.
  induction l1 as [|x l1 IH]; simpl; intros H1 H2 H12; [exact H2|].
  apply StronglySorted_inv in H1. destruct H1 as [H1 Hx].
  constructor.
  - apply IH; [exact H1 | exact H2|].
    intros a b Ha Hb. apply H12; [right; exact Ha | exact Hb].
  - apply Forall_app. split; [exact Hx|].
    apply Forall_forall. intros b Hb. apply H12; [left; reflexivity | exact Hb].
Qed.

Lemma sorted_weaken {A : Type} (R R' : A -> A -> Prop) (l : list A) :
  (forall a b, In a l -> In b l -> R a b -> R' a b) ->
  StronglySorted R l -> StronglySorted R' l.
Proof.
  intros Hw Hs. induction Hs as [|a l Hs IH Ha].
  - constructor.
  - constructor.
    + apply IH. intros x y Hx Hy. apply Hw; right; assumption.
    + rewrite Forall_forall in *. intros b Hb.
      apply Hw; [left; reflexivity | right; exact Hb | apply Ha; exact Hb].
Qed.

Lemma sorted_any {A : Type} (R : A -> A -> Prop) (l : list A) :
  (forall a b, In a l -> In b l -> R a b) -> StronglySorted R l.
Proof.
  induction l as [|x l IH]; intros Hall; constructor.
  - apply IH. intros a b Ha Hb. apply Hall; right; assumption.
  - apply Forall_forall. intros b Hb.
    apply Hall; [left; reflexivity | right; exact Hb].
Qed.

Lemma filter_split_perm {A : Type} (p : A -> bool) (l : list A) :
  Permutation l (filter p l ++ filter (fun x => negb (p x)) l).
Proof.
  induction l as [|a l IH]; simpl; [constructor|].
  destruct (p a); simpl.
  - apply perm_skip. exact IH.
  - apply Permutation_cons_app. exact IH.
Qed.

Lemma sort_by_purchase_perm (df : list OrderLine) :
  Permutation df (sort_by_purchase df).
Proof.
  unfold sort_by_purchase.
  eapply perm_trans;
    [apply (filter_split_perm (fun r => notna (order_purchase_timestamp r)))|].
  apply Permutation_app_tail, argsort_rows_perm.
Qed.

(** Lines 64-65: the sorted relation holds the same rows, those with a
    timestamp first in ascending order of the timestamp, those without at
    the end. *)
Theorem sort_by_purchase_sorted (df : list OrderLine) :
  Permutation df (sort_by_purchase df) /\
  StronglySorted purchase_le (sort_by_purchase df) /\
  List.length (sort_by_purchase df) = List.length df.
Proof.
  split; [apply sort_by_purchase_perm|]. split.
  - unfold sort_by_purchase. apply sorted_app.
    + apply (sorted_weaken (fun a b => timestamp_ns a <= timestamp_ns b)).
      * intros a b Ha Hb Hab.
        apply (Permutation_in _ (Permutation_sym (argsort_rows_perm _ _))) in Ha.
        apply (Permutation_in _ (Permutation_sym (argsort_rows_perm _ _))) in Hb.
        apply filter_In in Ha. destruct Ha as [_ Ha].
        apply filter_In in Hb. destruct Hb as [_ Hb].
        unfold purchase_le, timestamp_ns in *.
        destruct (order_purchase_timestamp a); [|discriminate].
        destruct (order_purchase_timestamp b); [exact Hab | discriminate].
      * apply argsort_rows_sorted.
    + apply sorted_any. intros a b _ Hb.
      apply filter_In in Hb. destruct Hb as [_ Hb]. unfold purchase_le.
      destruct (order_purchase_timestamp b); [discriminate|].
      destruct (order_purchase_timestamp a); exact I.
    + intros a b _ Hb. apply filter_In in Hb. destruct Hb as [_ Hb].
      unfold purchase_le.
      destruct (order_purchase_timestamp b); [discriminate|].
      destruct (order_purchase_timestamp a); exact I.
  - symmetry. apply Permutation_length, sort_by_purchase_perm.
Qed.

(** What the frames count does not depend on the order of the rows of the
    relation: a reordered relation gives, for every date range, the same
    category and state frames, the same dates and order counts in the daily
    frame and the same customers, last purchases, frequencies and recencies
    in the RFM frame, and so does the relation sorted by lines 64-65.  (The
    revenue and monetary columns are sums of prices and are left out.) *)
Theorem frames_ignore_row_order (all : list OrderLine) (orders : list Order)
        (start_date end_date : Z) :
  (forall all', Permutation all all' ->
                frame_counts
                  (fst (dashboard (mkGlobals all' orders) start_date end_date))
                = frame_counts
                    (fst (dashboard (mkGlobals all orders) start_date end_date))) /\
  frame_counts
    (fst (dashboard (mkGlobals (sort_by_purchase all) orders) start_date end_date))
  = frame_counts (fst (dashboard (mkGlobals all orders) start_date end_date)).
Proof.
  split.
  - intros all' Hp. symmetry. apply dashboard_counts_perm. exact Hp.
  - symmetry. apply dashboard_counts_perm, sort_by_purchase_perm.
Qed.

Lemma frames_ignore_row_order_witness :
  let a := line "A" "c1" "SP" (Some "tech"%string) (at_time 17533 10) 10 in
  let b := line "B" "c2" "RJ" (Some "home"%string) (at_time 17532 11) 20 in
  frame_counts (fst (dashboard (mkGlobals [b; a] []) 17532 17534))
  = frame_counts (fst (dashboard (mkGlobals [a; b] []) 17532 17534)).
Proof.
  intros a b.
  destruct (frames_ignore_row_order [a; b] [] 17532 17534) as [Hperm _].
  apply Hperm. apply perm_swap.
Defined.

Lemma series_min_spec (col : list Timestamp) (t : Z) :
  series_min col = Some t ->
  In (Some t) col /\ forall t', In (Some t') col -> t <= t'.
Proof.
  unfold series_min. destruct (dropna col) as [|t0 ts] eqn:E; [discriminate|].
  intros Ht. inversion Ht; subst t. clear Ht. split.
  - apply dropna_In. rewrite E. apply fold_min_In.
  - intros t' Ht'. apply dropna_In in Ht'. rewrite E in Ht'.
    destruct (fold_min_le t0 ts) as [H0 Hts].
    destruct Ht' as [<- | Ht']; [exact H0 | apply Hts; exact Ht'].
Qed.

(** Lines 68-78: the bounds offered by the date picker are purchase
    timestamps of the relation and enclose all of them; there is none
    exactly when no row has a timestamp.  With the default range, from the
    day of the earliest to the day of the latest purchase, the filter keeps
    every line bought before the last day. *)
Theorem date_picker_bounds (df : list OrderLine) :
  (min_date df = None <-> forall r, In r df -> order_purchase_timestamp r = None) /\
  (min_date df = None <-> max_date df = None) /\
  (forall lo hi,
      min_date df = Some lo -> max_date df = Some hi ->
      In (Some lo) (map order_purchase_timestamp df) /\
      In (Some hi) (map order_purchase_timestamp df) /\
      (forall r t, In r df -> order_purchase_timestamp r = Some t ->
                   lo <= t <= hi /\
                   (day_of t < day_of hi ->
                    In r (main_df df (day_of lo) (day_of hi))))).
Proof.
  unfold min_date, max_date.
  assert (Hnone : forall l : list Z,
             l = [] <-> forall t, ~ In t l).
  { intros l. split; [intros -> t []|].
    destruct l as [|x l]; [reflexivity|]. intros Hno. exfalso.
    apply (Hno x). left. reflexivity. }
  assert (Hmin : series_min (map order_purchase_timestamp df) = None <->
                 dropna (map order_purchase_timestamp df) = []).
  { unfold series_min. destruct (dropna _); split; congruence. }
  assert (Hmax : series_max (map order_purchase_timestamp df) = None <->
                 dropna (map order_purchase_timestamp df) = []).
  { unfold series_max. destruct (dropna _); split; congruence. }
  split; [|split].
  - rewrite Hmin, Hnone. split.
    + intros Hno r Hr. destruct (order_purchase_timestamp r) as [t|] eqn:E;
        [|reflexivity].
      exfalso. apply (Hno t). apply dropna_In. rewrite <- E. apply in_map. exact Hr.
    + intros Hall t Ht. apply dropna_In, in_map_iff in Ht.
      destruct Ht as [r [E Hr]]. rewrite (Hall r Hr) in E. discriminate.
  - rewrite Hmin, Hmax. reflexivity.
  - intros lo hi Hlo Hhi.
    apply series_min_spec in Hlo. destruct Hlo as [Hlo_in Hlo].
    apply series_max_spec in Hhi. destruct Hhi as [Hhi_in Hhi].
    split; [exact Hlo_in|]. split; [exact Hhi_in|].
    intros r t Hr Et.
    assert (Hin : In (Some t) (map order_purchase_timestamp df))
      by (rewrite <- Et; apply in_map; exact Hr).
    pose proof (Hlo t Hin) as H1. pose proof (Hhi t Hin) as H2.
    split; [lia|]. intros Hday. apply main_df_In. split; [exact Hr|].
    exists t. split; [exact Et|]. revert H1 Hday.
    unfold to_datetime_date, day_of, ns_per_day.
    Z.to_euclidean_division_equations. lia.
Qed.

Lemma date_picker_bounds_witness :
  let a := line "A" "c1" "SP" (Some "tech"%string) (at_time 17532 10) 10 in
  let b := line "B" "c2" "RJ" (Some "home"%string) (at_time 17534 11) 20 in
  In a (main_df [a; b] 17532 17534).
Proof.
  intros a b.
  destruct (date_picker_bounds [a; b]) as [_ [_ Hb]].
  destruct (Hb (17532 * ns_per_day + 10 * hour) (17534 * ns_per_day + 11 * hour)
               eq_refl eq_refl) as [_ [_ Hrow]].
  destruct (Hrow a (17532 * ns_per_day + 10 * hour)
                 (or_introl eq_refl) eq_refl) as [_ Hkeep].
  apply Hkeep. vm_compute. reflexivity.
Defined.

(** ** The customers shown by frequency *)

Lemma sorted_rows_of_pairs {A : Type} (f : A -> nat) (l : list (A * nat)) :
  (forall p, In p l -> snd p = f (fst p)) ->
  StronglySorted count_ge l ->
  StronglySorted (fun a b => (f b <= f a)%nat) (map fst l).
Proof.
  intros Hsnd Hs. induction Hs as [|p l Hl IH Hp]; simpl; constructor.
  - apply IH. intros q Hq. apply Hsnd. right. exact Hq.
  - rewrite Forall_forall in *. intros x Hx. apply in_map_iff in Hx.
    destruct Hx as [q [<- Hq]]. specialize (Hp q Hq). unfold count_ge in Hp.
    rewrite (Hsnd p (or_introl eq_refl)), (Hsnd q (or_intror Hq)) in Hp.
    exact Hp.
Qed.

(** Line 163: the rows shown are rows of the RFM frame, five of them when
    the frame has that many, and no row left out has a higher frequency
    than a row shown. *)
Theorem top_by_frequency_rows (rfm : list RfmRow) :
  incl (top_by_frequency rfm) rfm /\
  List.length (top_by_frequency rfm) = Nat.min 5 (List.length rfm) /\
  (forall a b, In a (top_by_frequency rfm) -> In b rfm ->
               ~ In b (top_by_frequency rfm) ->
               (frequency b <= frequency a)%nat).
Proof.
  unfold top_by_frequency, head.
  set (pairs := map (fun r => (r, frequency r)) rfm).
  assert (Hperm : Permutation rfm (map fst (sort_values_desc pairs))).
  { eapply perm_trans;
      [|apply Permutation_map, (sort_values_desc_perm pairs)].
    unfold pairs. rewrite map_map. simpl. rewrite map_id.
    apply Permutation_refl. }
  assert (Hsnd : forall p, In p (sort_values_desc pairs) -> snd p = frequency (fst p)).
  { intros p Hp.
    apply (Permutation_in _ (Permutation_sym (sort_values_desc_perm pairs))) in Hp.
    unfold pairs in Hp. apply in_map_iff in Hp. destruct Hp as [r [<- _]].
    reflexivity. }
  assert (Hs : StronglySorted (fun a b => (frequency b <= frequency a)%nat)
                              (map fst (sort_values_desc pairs))).
  { apply sorted_rows_of_pairs; [exact Hsnd | apply sort_values_desc_sorted]. }
  split; [|split].
  - intros r Hr. apply (Permutation_in _ (Permutation_sym Hperm)).
    rewrite <- (firstn_skipn 5 (map fst (sort_values_desc pairs))).
    apply in_or_app. left. exact Hr.
  - rewrite length_firstn, <- (Permutation_length Hperm). reflexivity.
  - intros a b Ha Hb Hnot.
    apply (Permutation_in _ Hperm) in Hb.
    rewrite <- (firstn_skipn 5 (map fst (sort_values_desc pairs))) in Hb.
    apply in_app_or in Hb. destruct Hb as [Hb | Hb]; [contradiction|].
    apply (sorted_firstn_skipn _ 5 _ Hs a b Ha Hb).
Qed.

Lemma top_by_frequency_rows_witness :
  let r1 := mkRfmRow "c1" None 1 10 None in
  let r2 := mkRfmRow "c2" None 3 10 None in
  incl (top_by_frequency [r1; r2]) [r1; r2].
Proof.
  intros r1 r2. destruct (top_by_frequency_rows [r1; r2]) as [Hincl _].
  exact Hincl.
Defined.

(** ** The RFM frame of a filtered relation *)

(** Over a filtered relation every customer has a last purchase, and it lies
    between midnight of the start date and midnight of the end date; the
    recency is null only when the orders table has no purchase timestamp at
    all. *)
Theorem rfm_of_filtered (all : list OrderLine) (orders : list Order)
        (start_date end_date : Z) (r : RfmRow) :
  In r (fst (create_rfm_df (main_df all start_date end_date) orders)) ->
  (exists t, max_order_timestamp r = Some t /\
             to_datetime_date start_date <= t <= to_datetime_date end_date) /\
  (recency r = None <->
   series_max (map o_order_purchase_timestamp orders) = None).
Proof.
  intros Hr. apply create_rfm_df_rows in Hr. destruct Hr as [k [Hk Hr]].
  cbv zeta in Hr. subst r. simpl.
  set (g := filter (has_key (fun x => Some (customer_id x)) k)
                   (main_df all start_date end_date)).
  assert (Hlast : exists t, series_max (map order_purchase_timestamp g) = Some t /\
                            to_datetime_date start_date <= t
                            <= to_datetime_date end_date).
  { destruct (series_max (map order_purchase_timestamp g)) as [t|] eqn:Et.
    - exists t. split; [reflexivity|].
      apply series_max_spec in Et. destruct Et as [Hin _].
      apply in_map_iff in Hin. destruct Hin as [x [Ex Hx]].
      apply filter_In in Hx. destruct Hx as [Hx _].
      apply main_df_In in Hx. destruct Hx as [_ [t' [Ex' Hb]]].
      assert (t' = t) by congruence. subst t'. exact Hb.
    - exfalso. apply in_map_iff in Hk. destruct Hk as [x [Ex Hx]].
      pose proof (main_df_valid_timestamp _ _ _ _ Hx) as Hv.
      destruct (order_purchase_timestamp x) as [t|] eqn:Et'; [|contradiction].
      apply (proj1 (series_max_None _) Et t).
      rewrite <- Et'. apply in_map. apply filter_In. split; [exact Hx|].
      apply has_key_true. rewrite Ex. reflexivity. }
  split; [exact Hlast|].
  destruct Hlast as [t [Et _]]. rewrite Et.
  destruct (series_max (map o_order_purchase_timestamp orders)); simpl;
    split; intros E; try reflexivity; discriminate.
Qed.

Lemma rfm_of_filtered_witness :
  let all := [line "A" "c1" "SP" (Some "tech"%string) (at_time 17532 10) 10] in
  recency (mkRfmRow "c1" (at_time 17532 10) 1 10 None) = None <->
  series_max (map o_order_purchase_timestamp []) = None.
Proof.
  intros all.
  apply (rfm_of_filtered all [] 17532 17534
                         (mkRfmRow "c1" (at_time 17532 10) 1 10 None)).
  vm_compute. left; reflexivity.
Defined.

Lemma daily_rows_inside_range_witness :
  let all := [line "A" "c1" "SP" (Some "tech"%string) (at_time 17532 10) 10;
              line "B" "c2" "RJ" (Some "home"%string) (at_time 17533 11) 20] in
  exists d, to_datetime_date 17533 = to_datetime_date d /\ 17532 <= d <= 17534.
Proof.
  intros all.
  destruct (daily_rows_inside_range all 17532 17534) as [_ [Hin _]].
  apply (Hin (mkDailyRow (to_datetime_date 17533) 1 20)).
  vm_compute. right; left; reflexivity.
Defined.

Lemma category_rows_witness :
  let df := [line "A" "c1" "SP" (Some "tech"%string) (at_time 17532 10) 10;
             line "B" "c2" "RJ" (Some "tech"%string) (at_time 17532 11) 20] in
  In ("tech"%string, 2%nat) (create_sum_order_items_df df).
Proof.
  intros df.
  destruct (category_rows df) as [_ [Hrows _]].
  apply Hrows. split; [left; reflexivity | vm_compute; reflexivity].
Defined.

Lemma best_and_worst_products_witness :
  let mk := fun c => line "A" "c1" "SP" (Some c) (at_time 17532 10) 10 in
  let df := [mk "a"; mk "a"; mk "b"; mk "c"; mk "d"; mk "e"; mk "f"]%string in
  (snd ("f"%string, 1%nat) <= snd ("a"%string, 2%nat))%nat.
Proof.
  intros mk df.
  destruct (best_and_worst_products df) as [Hbest _].
  apply Hbest; vm_compute; left; reflexivity.
Defined.

(** ** Rows without a timestamp, frame by frame *)

Lemma dropna_map_filter {A B : Type} (f : A -> option B) (p : A -> bool)
      (l : list A) :
  (forall x, p x = false -> f x = None) ->
  dropna (map f (filter p l)) = dropna (map f l).
Proof.
  intros Hp. unfold dropna. induction l as [|x l IH]; [reflexivity|]. simpl.
  destruct (p x) eqn:E; simpl.
  - rewrite IH. reflexivity.
  - rewrite IH, (Hp x E). reflexivity.
Qed.

Lemma filter_filter_implied {A : Type} (p q : A -> bool) (l : list A) :
  (forall x, q x = true -> p x = true) ->
  filter q (filter p l) = filter q l.
Proof.
  intros Hq. induction l as [|x l IH]; [reflexivity|]. simpl.
  destruct (p x) eqn:Ep; simpl.
  - rewrite IH. reflexivity.
  - destruct (q x) eqn:Eq; [|exact IH].
    rewrite (Hq x Eq) in Ep. discriminate.
Qed.

(** The daily frame is built from the rows that have a timestamp. *)
Lemma create_daily_orders_df_valid_rows (df : list OrderLine) :
  create_daily_orders_df df
  = create_daily_orders_df
      (filter (fun x => notna (order_purchase_timestamp x)) df).
Proof.
  unfold create_daily_orders_df, resample_D.
  rewrite (dropna_map_filter purchase_day).
  2:{ intros x Hx. unfold purchase_day.
      destruct (order_purchase_timestamp x); [discriminate | reflexivity]. }
  destruct (dropna (map purchase_day df)) as [|d ds]; [reflexivity|].
  rewrite !map_map. apply map_ext. intros b. simpl.
  rewrite filter_filter_implied; [reflexivity|].
  intros x Hx. unfold on_day, purchase_day in Hx.
  destruct (order_purchase_timestamp x); [reflexivity | discriminate].
Qed.

(** The last purchase is that of the rows that have a timestamp. *)
Lemma series_max_valid_rows (g : list OrderLine) :
  series_max (map order_purchase_timestamp g)
  = series_max (map order_purchase_timestamp
                    (filter (fun x => notna (order_purchase_timestamp x)) g)).
Proof.
  unfold series_max. rewrite (dropna_map_filter order_purchase_timestamp).
  - reflexivity.
  - intros x Hx. destruct (order_purchase_timestamp x);
      [discriminate | reflexivity].
Qed.

(** C2, as the code has it: a row without a purchase timestamp never passes
    the date-range filter, so no frame built from the filtered relation
    counts it.  The helpers themselves, given a relation that holds such a
    row, count it where the timestamp plays no part: the row of its state
    counts the distinct customers of the lines of the state, this one among
    them; the row of its customer counts the distinct orders and sums the
    prices of the customer's lines, this one among them; the row of its
    category, when it has one, counts the lines of the category, this one
    among them.  It is left out of what depends on the timestamp: the last
    purchase of its customer is taken over the customer's lines that have a
    timestamp, and the daily frame is the one of the relation without the
    rows that have none. *)
Theorem null_timestamp_row (df : list OrderLine) (r : OrderLine) :
  order_purchase_timestamp r = None ->
  (forall start_date end_date, ~ In r (main_df df start_date end_date)) /\
  (In r df ->
   let of_state := filter (has_key state_key (customer_state r)) df in
   let of_customer := filter (has_key customer_key (customer_id r)) df in
   (In r of_state /\
    In (customer_state r, series_nunique string_dec (map customer_id of_state))
       (create_bystate_df df)) /\
   (In r of_customer /\
    forall orders,
    exists row,
      In row (fst (create_rfm_df df orders)) /\
      rfm_customer_id row = customer_id r /\
      frequency row = series_nunique string_dec (map order_id of_customer) /\
      monetary row = series_sum (map price of_customer) /\
      max_order_timestamp row
      = series_max
          (map order_purchase_timestamp
               (filter (fun x => notna (order_purchase_timestamp x))
                       of_customer))) /\
   (forall c, product_category_name_english r = Some c ->
              let of_category :=
                filter (has_key product_category_name_english c) df in
              In r of_category /\
              In (c, List.length of_category) (create_sum_order_items_df df)) /\
   create_daily_orders_df df
   = create_daily_orders_df
       (filter (fun x => notna (order_purchase_timestamp x)) df) /\
   ~ In r (filter (fun x => notna (order_purchase_timestamp x)) df)).
Proof.
  intros Hnull. split.
  - intros s e Hin. apply main_df_valid_timestamp in Hin. contradiction.
  - intros Hin of_state of_customer.
    assert (Hs : In r of_state).
    { apply filter_In. split; [exact Hin|]. apply has_key_true. reflexivity. }
    assert (Hc : In r of_customer).
    { apply filter_In. split; [exact Hin|]. apply has_key_true. reflexivity. }
    split; [|split; [|split; [|split]]].
    + split; [exact Hs|]. apply create_bystate_df_In.
      split; [apply in_map; exact Hin | reflexivity].
    + split; [exact Hc|]. intros orders.
      eexists. split.
      * apply create_rfm_df_rows. exists (customer_id r).
        split; [apply in_map; exact Hin|]. cbv zeta. reflexivity.
      * simpl. split; [reflexivity|]. split; [reflexivity|].
        split; [reflexivity|]. apply series_max_valid_rows.
    + intros c Hcat of_category. split.
      * apply filter_In. split; [exact Hin|]. apply has_key_true. exact Hcat.
      * apply (Permutation_in _ (create_sum_order_items_df_perm df)).
        apply category_counts_In. split; [|reflexivity].
        rewrite <- Hcat. apply in_map. exact Hin.
    + apply create_daily_orders_df_valid_rows.
    + intros Hr. apply filter_In in Hr. destruct Hr as [_ Hr].
      rewrite Hnull in Hr. discriminate.
Qed.

Lemma null_timestamp_row_witness :
  let a := line "A" "c1" "SP" (Some "tech"%string) (at_time 17532 10) 10 in
  let r := line "B" "c1" "SP" (Some "tech"%string) None 20 in
  let df := [a; r] in
  order_purchase_timestamp r = None /\
  ~ In r (main_df df 17532 17534) /\
  In ("SP"%string, 1%nat) (create_bystate_df df) /\
  In ("tech"%string, 2%nat) (create_sum_order_items_df df) /\
  (exists row, In row (fst (create_rfm_df df [])) /\
               rfm_customer_id row = "c1"%string /\
               frequency row = 2%nat /\ monetary row = 30 /\
               max_order_timestamp row = at_time 17532 10) /\
  create_daily_orders_df df = create_daily_orders_df [a].
Proof.
  intros a r df.
  destruct (null_timestamp_row df r eq_refl) as [Hout Hin].
  destruct (Hin (or_intror (or_introl eq_refl)))
    as [[_ Hstate] [[_ Hrfm] [Hcat [Hdaily _]]]].
  split; [reflexivity|]. split; [apply Hout|].
  split; [exact Hstate|].
  split; [exact (proj2 (Hcat "tech"%string eq_refl))|].
  split; [|exact Hdaily].
  destruct (Hrfm []) as [row [H1 [H2 [H3 [H4 H5]]]]].
  exists row. repeat split; assumption.
Defined.
